(** * Kink-Hunter Pro front end: polling, bot control, settings and chart data

    A shallow embedding of the client-side logic of the dashboard
    (Dashboard.tsx, Settings.tsx, StrategySelect.tsx, PortfolioChart.tsx,
    TopOpportunities, the typed API client and the shared types), followed by
    the properties of it that the specification talks about.

    JavaScript numbers are IEEE 754 binary64 values; they are modelled by
    Rocq's primitive [float], which is the same format with the same
    round-to-nearest-even arithmetic.  Asynchronous handlers are modelled in
    a small state-and-exception monad over a world made of the component's
    React state and the log of the effects it has issued (HTTP requests,
    console output, navigation); the answers of the remote service are an
    explicit parameter.  One handler runs from its start to its end: the
    interleaving of handlers that are pending at the same time is not part
    of the model. *)

From Stdlib Require Import ZArith List String Ascii Bool Lia Floats DecimalString.
Import ListNotations.

#[local] Set Warnings "-inexact-float".
#[local] Open Scope string_scope.

(* ================================================================== *)
(** * ECMAScript built-ins used by the components *)
(* ================================================================== *)

Module JS.

(** The Number type. *)
Definition number := float.

(** ToBoolean on a Number: [+0], [-0] and [NaN] are falsy. *)
Definition truthy (x : number) : bool := negb (is_nan x || is_zero x).

(** [a || b] on Numbers. *)
Definition or_else (a b : number) : number := if truthy a then a else b.

(** A value of type [number | undefined]; [None] is [undefined], which is
    falsy. *)
Definition truthy_opt (v : option number) : bool :=
  match v with
  | Some x => truthy x
  | None => false
  end.

(** [a || b] on values of type [number | undefined]. *)
Definition or_else_opt (a b : option number) : option number :=
  if truthy_opt a then a else b.

(** The Number nearest to an integer (round to nearest, ties to even). *)
Definition Z_to_number (n : Z) : number :=
  SF2Prim (binary_normalize prec emax n 0 false).

(** [Math.round]: NaN, the infinities, the zeros and integral values are
    returned as they are; otherwise the integer nearest to [x], the one
    towards +infinity on a tie, that is [floor (x + 1/2)] computed exactly;
    a zero result keeps the sign of [x]. *)
Definition Math_round (x : number) : number :=
  match Prim2SF x with
  | S754_finite s m e =>
      if (0 <=? e)%Z then x
      else
        let k := (- e)%Z in
        let n := ((2 * cond_Zopp s (Zpos m) + 2 ^ k) / 2 ^ (k + 1))%Z in
        if (n =? 0)%Z then (if s then neg_zero else zero) else Z_to_number n
  | _ => x
  end.

(** Decimal digits of a non-negative integer. *)
Definition digits (n : Z) : string :=
  NilZero.string_of_uint (N.to_uint (Z.to_N n)).

(** [i.toString()] for a loop counter. *)
Definition nat_toString (i : nat) : string := digits (Z.of_nat i).

Definition zeros (n : nat) : string := String.concat "" (List.repeat "0" n).

(** Steps 11.b-11.c of Number.prototype.toFixed: the digits of [n] with a
    decimal point before the last [f] of them. *)
Definition fixed_digits (n : Z) (f : nat) : string :=
  let m := digits n in
  match f with
  | O => m
  | S _ =>
      let k := String.length m in
      let m := if (k <=? f)%nat then zeros (f + 1 - k) ++ m else m in
      let k := String.length m in
      substring 0 (k - f) m ++ "." ++ substring (k - f) f m
  end.

Fixpoint strip_trailing_zeros_rev (r : list ascii) : list ascii :=
  match r with
  | "0"%char :: r' => strip_trailing_zeros_rev r'
  | _ => r
  end.

Definition strip_trailing_zeros (s : string) : string :=
  string_of_list_ascii
    (rev (strip_trailing_zeros_rev (rev (list_ascii_of_string s)))).

(** Exponential notation [d.ddde+n] of a positive integer whose significant
    digits are those of [v] without its trailing zeros. *)
Definition exponential_digits (v : Z) : string :=
  let d := digits v in
  let n := String.length d in
  let s := strip_trailing_zeros d in
  let mant :=
    match s with
    | String c EmptyString => s
    | String c r => String c ("." ++ r)
    | EmptyString => s
    end in
  mant ++ "e+" ++ digits (Z.of_nat (n - 1)).

(** Number::toString picks the fewest significant digits that still denote
    [x]: with [k] digits kept, the two candidates around the exact value
    [X] are tried, and [k] grows until one of them converts back to [x]. *)
Fixpoint shortest_from (x : number) (X : Z) (nd k fuel : nat) : Z :=
  match fuel with
  | O => X
  | S fuel' =>
      let p := (10 ^ Z.of_nat (nd - k))%Z in
      let lo := (X / p * p)%Z in
      let hi := (lo + p)%Z in
      match PrimFloat.Leibniz.eqb (Z_to_number lo) x,
            PrimFloat.Leibniz.eqb (Z_to_number hi) x with
      | true, true =>
          match (X - lo ?= hi - X)%Z with
          | Lt => lo
          | Gt => hi
          | Eq => if Z.even (lo / p) then lo else hi
          end
      | true, false => lo
      | false, true => hi
      | false, false => shortest_from x X nd (S k) fuel'
      end
  end.

(** Number::toString of a finite [x >= 1e21], whose exact value is the
    integer [X]. *)
Definition toString_large (x : number) (X : Z) : string :=
  let nd := String.length (digits X) in
  exponential_digits (shortest_from x X nd 1 nd).

(** [x.toFixed(fractionDigits)], for [fractionDigits] in 0..100 (the
    components pass 0, 1 and 2).  With [f] fraction digits the integer [n]
    is the one for which [n / 10^f] is nearest to the exact value of [|x|],
    the larger one on a tie. *)
Definition Number_toFixed (x : number) (fractionDigits : nat) : string :=
  match Prim2SF x with
  | S754_nan => "NaN"
  | S754_infinity s => if s then "-Infinity" else "Infinity"
  | S754_zero _ => fixed_digits 0 fractionDigits
  | S754_finite s m e =>
      let sgn := if s then "-" else "" in
      let f := Z.of_nat fractionDigits in
      if (0 <=? e)%Z then
        let X := (Zpos m * 2 ^ e)%Z in
        if (10 ^ 21 <=? X)%Z then sgn ++ toString_large (abs x) X
        else sgn ++ fixed_digits (X * 10 ^ f) fractionDigits
      else
        let k := (- e)%Z in
        let n := ((2 * Zpos m * 10 ^ f + 2 ^ k) / 2 ^ (k + 1))%Z in
        sgn ++ fixed_digits n fractionDigits
  end.

(** [s.padStart(maxLength, fillString)]. *)
Definition padStart (s : string) (maxLength : nat) (fillString : string) : string :=
  let len := String.length s in
  if (maxLength <=? len)%nat then s
  else
    match fillString with
    | EmptyString => s
    | _ =>
        let fillLen := maxLength - len in
        substring 0 fillLen (String.concat "" (List.repeat fillString fillLen)) ++ s
    end.

(** White space and line terminators that [parseFloat] skips, among the
    code units below 256 that a [string] holds here: TAB, LF, VT, FF, CR,
    SP and NBSP. *)
Definition isStrWhiteSpaceChar (c : ascii) : bool :=
  let n := nat_of_ascii c in
  ((9 <=? n) && (n <=? 13) || (n =? 32) || (n =? 160))%nat.

Fixpoint trimStart (s : string) : string :=
  match s with
  | String c r => if isStrWhiteSpaceChar c then trimStart r else s
  | EmptyString => s
  end.

Definition isDecimalDigit (c : ascii) : bool :=
  let n := nat_of_ascii c in ((48 <=? n) && (n <=? 57))%nat.

(** The longest run of decimal digits at the head of [s]: its value on top
    of [acc], its length on top of [len], and what follows it. *)
Fixpoint scanDigits (s : string) (acc : Z) (len : nat) : Z * nat * string :=
  match s with
  | String c r =>
      if isDecimalDigit c
      then scanDigits r (10 * acc + Z.of_nat (nat_of_ascii c - 48)) (S len)
      else (acc, len, s)
  | EmptyString => (acc, len, s)
  end.

Definition scanSign (s : string) : bool * string :=
  match s with
  | String "-" r => (true, r)
  | String "+" r => (false, r)
  | _ => (false, s)
  end.

(** An ExponentPart at the head of [s] (an indicator, an optional sign and
    at least one digit), as its value; 0 when there is none. *)
Definition scanExponent (s : string) : Z :=
  match s with
  | String c r =>
      if (Ascii.eqb c "e" || Ascii.eqb c "E")%char then
        let '(neg, r') := scanSign r in
        let '(v, len, _) := scanDigits r' 0 0 in
        match len with
        | O => 0
        | S _ => if neg then - v else v
        end
      else 0
  | EmptyString => 0
  end%Z.

(** The Number for the decimal [(-1)^neg * d * 10^e10], correctly rounded. *)
Definition decimal_to_number (neg : bool) (d : Z) (e10 : Z) : number :=
  match d with
  | Zpos _ =>
      if (0 <=? e10)%Z then
        SF2Prim (binary_normalize prec emax (cond_Zopp neg (d * 10 ^ e10)) 0 false)
      else
        let '(q, e2, l) := SFdiv_core_binary prec emax d 0 (10 ^ (- e10)) 0 in
        SF2Prim (binary_round_aux prec emax neg q e2 l)
  | _ => if neg then neg_zero else zero
  end.

(** [parseFloat]: leading white space is skipped, the longest prefix that
    is a StrDecimalLiteral is converted, and NaN is returned when there is
    no such prefix. *)
Definition parseFloat (input : string) : number :=
  let '(neg, u) := scanSign (trimStart input) in
  if String.prefix "Infinity" u then (if neg then neg_infinity else infinity)
  else
    let '(ip, ilen, r1) := scanDigits u 0 0 in
    let '(fp, flen, r2) :=
      match r1 with
      | String "." r =>
          let '(fp, flen, r2) := scanDigits r ip 0 in
          match ilen, flen with
          | O, O => (ip, O, r1)
          | _, _ => (fp, flen, r2)
          end
      | _ => (ip, O, r1)
      end in
    match ilen, flen with
    | O, O => nan
    | _, _ => decimal_to_number neg fp (scanExponent r2 - Z.of_nat flen)
    end.

End JS.

Import JS.

(* ================================================================== *)
(** * Shared types (types/index.ts) *)
(* ================================================================== *)

Inductive BotStatus := stopped | running | scanning.

Inductive StrategyType := fullset | endgame | oracle | rewards.

Record PortfolioSummary := {
  total_value : number;
  cash_balance : number;
  positions_value : number;
  total_pnl : number;
  total_return_pct : number;
  realized_pnl : number;
  unrealized_pnl : number;
  num_open_positions : number;
  total_trades : number
}.

(** [edge_pct] is declared as always present; it is kept optional here
    because the object is the server's JSON as it arrived and the display
    code falls back past it. *)
Record Opportunity := {
  id : string;
  name : string;
  strategy : string;
  edge : number;
  edge_pct : option number;
  annualized_return : option number;
  liquidity : number;
  days_until_resolution : option number;
  total_cost : option number;
  num_outcomes : option number
}.

Inductive ActivityType := scan | trade | info | error_entry.

Record ActivityLogEntry := {
  timestamp : string;
  type : ActivityType;
  message : string
}.

(** [Record<StrategyType, boolean>]: one flag per strategy. *)
Record StrategyFlags := {
  flag_fullset : bool;
  flag_endgame : bool;
  flag_oracle : bool;
  flag_rewards : bool
}.

Definition flag (m : StrategyFlags) (key : StrategyType) : bool :=
  match key with
  | fullset => flag_fullset m
  | endgame => flag_endgame m
  | oracle => flag_oracle m
  | rewards => flag_rewards m
  end.

(** [{ ...m, [key]: checked }]. *)
Definition set_flag (m : StrategyFlags) (key : StrategyType) (checked : bool) : StrategyFlags :=
  match key with
  | fullset => {| flag_fullset := checked; flag_endgame := flag_endgame m;
                  flag_oracle := flag_oracle m; flag_rewards := flag_rewards m |}
  | endgame => {| flag_fullset := flag_fullset m; flag_endgame := checked;
                  flag_oracle := flag_oracle m; flag_rewards := flag_rewards m |}
  | oracle => {| flag_fullset := flag_fullset m; flag_endgame := flag_endgame m;
                 flag_oracle := checked; flag_rewards := flag_rewards m |}
  | rewards => {| flag_fullset := flag_fullset m; flag_endgame := flag_endgame m;
                  flag_oracle := flag_oracle m; flag_rewards := checked |}
  end.

Record BotSettings := {
  risk_appetite : number;
  strategies_enabled : StrategyFlags;
  max_capital : number
}.

Record StatusResponse := {
  bot_status : BotStatus;
  mode : string;
  portfolio : PortfolioSummary;
  active_strategies : list string;
  uptime_seconds : number
}.

(** The body [{ message }] that the start and stop endpoints answer with. *)
Record CommandReply := { reply_message : string }.

Record StrategyPreset := {
  preset_id : string;
  preset_name : string;
  preset_description : string;
  expectedReturn : string;
  strategies : list StrategyType
}.

Definition STRATEGY_PRESETS : list StrategyPreset := [
  {| preset_id := "safe"; preset_name := "Safe & Steady";
     preset_description := "Focus on endgame sweeps and holding rewards";
     expectedReturn := "15-25%"; strategies := [endgame; rewards] |};
  {| preset_id := "balanced"; preset_name := "Balanced Growth";
     preset_description := "Mix of all strategies with moderate risk";
     expectedReturn := "25-50%"; strategies := [fullset; endgame; rewards] |};
  {| preset_id := "aggressive"; preset_name := "High Yield";
     preset_description := "Focus on arbitrage with higher risk tolerance";
     expectedReturn := "50-100%+"; strategies := [fullset; endgame; oracle] |}
].

(* ================================================================== *)
(** * Asynchronous handlers: state, effects and exceptions *)
(* ================================================================== *)

(** What a rejected promise or a [throw] carries. *)
Definition error := string.

Inductive completion (A : Type) : Type :=
| Normal (a : A)
| Throw (e : error).
Arguments Normal {A} a.
Arguments Throw {A} e.

(** The query of [GET /strategies/opportunities/{strategy}]. *)
Record OpportunityParams := {
  limit : option number;
  min_edge : option number;
  min_liquidity : option number;
  max_days : option number
}.

(** The requests of the HTTP contract. *)
Inductive Request :=
| GET_bot_status
| POST_bot_start (preset : string)
| POST_bot_stop
| GET_opportunities (strategy_path : string) (params : OpportunityParams)
| GET_bot_activity (limit_param : number)
| GET_settings
| POST_settings (body : BotSettings).

(** What a handler does to the outside, in the order it does it. *)
Inductive Effect :=
| Http (r : Request)
| ConsoleError (label : string) (e : error)
| Navigate (path : string).

(** The remote service as one round of polling or one command sees it: how
    each endpoint answers. *)
Record Remote := {
  bot_status_reply : completion StatusResponse;
  bot_start_reply : string -> completion CommandReply;
  bot_stop_reply : completion CommandReply;
  opportunities_reply : string -> OpportunityParams -> completion (list Opportunity);
  bot_activity_reply : number -> completion (list ActivityLogEntry);
  settings_reply : completion BotSettings;
  update_settings_reply : BotSettings -> completion BotSettings
}.

(** The component's React state and the effects issued so far. *)
Record World (S : Type) := {
  ui : S;
  effects : list Effect
}.
Arguments ui {S} w.
Arguments effects {S} w.

Definition Async (S A : Type) : Type := World S -> completion A * World S.

Section AsyncOps.
Context {S : Type}.

Definition ret {A} (a : A) : Async S A := fun w => (Normal a, w).

Definition bind {A B} (m : Async S A) (k : A -> Async S B) : Async S B :=
  fun w =>
    match m w with
    | (Normal a, w') => k a w'
    | (Throw e, w') => (Throw e, w')
    end.

(** [try { body } catch (error) { handler }]. *)
Definition try_catch {A} (body : Async S A) (handler : error -> Async S A) : Async S A :=
  fun w =>
    match body w with
    | (Normal a, w') => (Normal a, w')
    | (Throw e, w') => handler e w'
    end.

(** [try { body } finally { fin }]: [fin] always runs, and the completion is
    that of [body] unless [fin] throws. *)
Definition try_finally {A} (body : Async S A) (fin : Async S unit) : Async S A :=
  fun w =>
    let '(r, w') := body w in
    match fin w' with
    | (Normal _, w'') => (r, w'')
    | (Throw e, w'') => (Throw e, w'')
    end.

(** A call whose promise is dropped: it runs, and its completion is not
    observed by the caller. *)
Definition detached {A} (m : Async S A) : Async S unit :=
  fun w => let '(_, w') := m w in (Normal tt, w').

(** [await Promise.all([p1, p2])]: both calls are issued, and the wait
    yields both values or rejects as soon as one of them rejects.  When both
    reject, the reason reported here is that of the first of the array. *)
Definition Promise_all2 {A B} (p1 : Async S A) (p2 : Async S B) : Async S (A * B) :=
  fun w =>
    let '(r1, w1) := p1 w in
    let '(r2, w2) := p2 w1 in
    match r1, r2 with
    | Normal a, Normal b => (Normal (a, b), w2)
    | Throw e, _ => (Throw e, w2)
    | _, Throw e => (Throw e, w2)
    end.

(** A React state setter. *)
Definition setState (f : S -> S) : Async S unit :=
  fun w => (Normal tt, {| ui := f (ui w); effects := effects w |}).

Definition emit (e : Effect) : Async S unit :=
  fun w => (Normal tt, {| ui := ui w; effects := effects w ++ [e] |}).

Definition console_error (label : string) (e : error) : Async S unit :=
  emit (ConsoleError label e).

Definition navigate (path : string) : Async S unit := emit (Navigate path).

(** One round trip: the request goes out and the promise settles with the
    remote's answer. *)
Definition request {A} (r : Request) (answer : completion A) : Async S A :=
  fun w => (answer, {| ui := ui w; effects := effects w ++ [Http r] |}).

End AsyncOps.

Declare Scope async_scope.
Delimit Scope async_scope with async.
Notation "x <- m ;; k" := (bind m (fun x => k))
  (at level 61, m at next level, right associativity) : async_scope.
Notation "m ;; k" := (bind m (fun _ => k))
  (at level 61, right associativity) : async_scope.
Notation "' pat <- m ;; k" := (bind m (fun x => let pat := x in k))
  (at level 61, pat pattern, m at next level, right associativity) : async_scope.

(* ================================================================== *)
(** * The API client (api/client.ts) *)
(* ================================================================== *)

Module Client.
Section WithRemote.
Context {S : Type} (srv : Remote).

Definition getBotStatus : Async S StatusResponse :=
  request GET_bot_status (bot_status_reply srv).

(** [startBot(preset = 'balanced')]; every caller passes the preset. *)
Definition startBot (preset : string) : Async S CommandReply :=
  request (POST_bot_start preset) (bot_start_reply srv preset).

Definition stopBot : Async S CommandReply :=
  request POST_bot_stop (bot_stop_reply srv).

Definition getOpportunities (strategy : string) (params : OpportunityParams)
  : Async S (list Opportunity) :=
  request (GET_opportunities strategy params) (opportunities_reply srv strategy params).

Definition getActivityLog (limit : number) : Async S (list ActivityLogEntry) :=
  request (GET_bot_activity limit) (bot_activity_reply srv limit).

Definition getSettings : Async S BotSettings :=
  request GET_settings (settings_reply srv).

Definition updateSettings (settings : BotSettings) : Async S BotSettings :=
  request (POST_settings settings) (update_settings_reply srv settings).
End WithRemote.
End Client.

#[local] Open Scope async_scope.

(* ================================================================== *)
(** * TopOpportunities (components/widgets) *)
(* ================================================================== *)

Module TopOpportunities.

Definition formatReturn (value : option number) : string :=
  match value with
  | None => "N/A"
  | Some v => Number_toFixed v 1 ++ "%"
  end.

Definition formatLiquidity (value : number) : string :=
  if (1000 <=? value)%float
  then "$" ++ Number_toFixed (value / 1000)%float 1 ++ "K"
  else "$" ++ Number_toFixed value 0.

(** The return shown for one opportunity:
    [formatReturn(o.annualized_return || o.edge_pct)]. *)
Definition displayedReturn (o : Opportunity) : string :=
  formatReturn (or_else_opt (annualized_return o) (edge_pct o)).

Record Row := {
  row_name : string;
  row_return : string;
  row_strategy : string;
  row_liquidity : string
}.

Inductive View :=
| ScanningMarkets
| NoOpportunities
| Rows (rows : list Row).

Definition render (opportunities : list Opportunity) (loading : bool) : View :=
  if loading then ScanningMarkets
  else
    match opportunities with
    | [] => NoOpportunities
    | _ =>
        Rows (map (fun o => {| row_name := name o;
                               row_return := displayedReturn o;
                               row_strategy := strategy o;
                               row_liquidity := formatLiquidity (liquidity o) ++ " liq" |})
                  (firstn 5 opportunities))
    end.

End TopOpportunities.

(* ================================================================== *)
(** * PortfolioChart (components/widgets) *)
(* ================================================================== *)

Module PortfolioChart.

Record ChartPoint := {
  time : string;
  value : number
}.

(** [Math.round(value * 100) / 100]. *)
Definition round2 (value : number) : number :=
  (Math_round (value * 100) / 100)%float.

(** The body of [for (let i = 0; i < points; i++)], with [remaining] the
    number of iterations left; [random i] is what [Math.random()] returns
    in iteration [i]. *)
Fixpoint mockLoop (random : nat -> number) (i remaining : nat)
         (value : number) (data : list ChartPoint) : list ChartPoint :=
  match remaining with
  | O => data
  | S remaining' =>
      let hour := padStart (nat_toString i) 2 "0" ++ ":00" in
      let data := (data ++ [{| time := hour; value := round2 value |}])%list in
      let value := (value + (random i - 0.45) * 10)%float in
      mockLoop random (S i) remaining' value data
  end.

(** [data[idx].value = v]; [None] is the TypeError of assigning to a
    property of [undefined], when [idx] is not an index of [data]. *)
Definition set_value_at (data : list ChartPoint) (idx : nat) (v : number)
  : option (list ChartPoint) :=
  match nth_error data idx with
  | Some p => Some (firstn idx data ++ {| time := time p; value := v |} :: skipn (S idx) data)%list
  | None => None
  end.

(** [generateMockData(currentValue)].  On an empty [data] the index
    [data.length - 1] is -1 and the assignment throws; the truncated
    subtraction gives 0 there, which is no index of an empty list either. *)
Definition generateMockData (random : nat -> number) (currentValue : number)
  : option (list ChartPoint) :=
  let points := 24 in
  let data := mockLoop random 0 points (currentValue * 0.95)%float [] in
  set_value_at data (List.length data - 1) currentValue.

(** The series the chart draws: the one supplied, or the mock one. *)
Definition chartSeries (random : nat -> number) (portfolio : PortfolioSummary)
           (chartData : list ChartPoint) : option (list ChartPoint) :=
  match chartData with
  | [] => generateMockData random (total_value portfolio)
  | _ => Some chartData
  end.

End PortfolioChart.

(* ================================================================== *)
(** * Dashboard (pages) *)
(* ================================================================== *)

Module Dashboard.

Record State := {
  status : option StatusResponse;
  opportunities : list Opportunity;
  activity : list ActivityLogEntry;
  loading : bool;
  oppsLoading : bool
}.

Definition initial : State :=
  {| status := None; opportunities := []; activity := [];
     loading := true; oppsLoading := false |}.

Definition setStatus (v : option StatusResponse) : Async State unit :=
  setState (fun s => {| status := v; opportunities := opportunities s;
                        activity := activity s; loading := loading s;
                        oppsLoading := oppsLoading s |}).

Definition setOpportunities (v : list Opportunity) : Async State unit :=
  setState (fun s => {| status := status s; opportunities := v;
                        activity := activity s; loading := loading s;
                        oppsLoading := oppsLoading s |}).

Definition setActivity (v : list ActivityLogEntry) : Async State unit :=
  setState (fun s => {| status := status s; opportunities := opportunities s;
                        activity := v; loading := loading s;
                        oppsLoading := oppsLoading s |}).

Definition setLoading (v : bool) : Async State unit :=
  setState (fun s => {| status := status s; opportunities := opportunities s;
                        activity := activity s; loading := v;
                        oppsLoading := oppsLoading s |}).

Definition setOppsLoading (v : bool) : Async State unit :=
  setState (fun s => {| status := status s; opportunities := opportunities s;
                        activity := activity s; loading := loading s;
                        oppsLoading := v |}).

Definition fetchData (srv : Remote) : Async State unit :=
  try_finally
    (try_catch
       ('(statusData, activityData) <-
           Promise_all2 (Client.getBotStatus srv) (Client.getActivityLog srv 20%float) ;;
        setStatus (Some statusData) ;;
        setActivity activityData)
       (fun error => console_error "Failed to fetch status:" error))
    (setLoading false).

Definition fetchOpportunities (srv : Remote) : Async State unit :=
  setOppsLoading true ;;
  try_finally
    (try_catch
       (opps <- Client.getOpportunities srv "fullset"
                  {| limit := Some 5%float; min_edge := None;
                     min_liquidity := None; max_days := None |} ;;
        setOpportunities opps)
       (fun error => console_error "Failed to fetch opportunities:" error))
    (setOppsLoading false).

(** The effect run on mount: one fetch of each kind. *)
Definition mount (srv : Remote) : Async State unit :=
  detached (fetchData srv) ;;
  detached (fetchOpportunities srv).

(** The interval timer: one [fetchData] per tick, each against the remote
    as it answers at that tick. *)
Fixpoint poll (ticks : list Remote) : Async State unit :=
  match ticks with
  | [] => ret tt
  | srv :: ticks' => detached (fetchData srv) ;; poll ticks'
  end.

(** [status?.bot_status === 'running' || status?.bot_status === 'scanning'] *)
Definition isActive (status : option StatusResponse) : bool :=
  match status with
  | Some s =>
      match bot_status s with
      | running | scanning => true
      | stopped => false
      end
  | None => false
  end.

(** [handleStartStop], a closure over the [status] of the render it
    belongs to. *)
Definition handleStartStop (srv : Remote) (status : option StatusResponse)
  : Async State unit :=
  try_catch
    ((if isActive status
      then (_ <- Client.stopBot srv ;; ret tt)
      else (_ <- Client.startBot srv "balanced" ;; ret tt)) ;;
     detached (fetchData srv))
    (fun error => console_error "Failed to toggle bot:" error).

(** A click on the start/stop button of the current render. *)
Definition clickStartStop (srv : Remote) : Async State unit :=
  fun w => handleStartStop srv (status (ui w)) w.

Inductive View :=
| LoadingScreen
| Page (shown : StatusResponse) (entries : list ActivityLogEntry)
       (buttonLabel : string).

Definition render (s : State) : View :=
  match loading s, status s with
  | false, Some st =>
      Page st (activity s) (if isActive (Some st) then "Stop Bot" else "Start Bot")
  | _, _ => LoadingScreen
  end.

End Dashboard.

(* ================================================================== *)
(** * StrategySelect (pages) *)
(* ================================================================== *)

Module StrategySelect.

Record State := {
  selected : string;
  starting : bool
}.

Definition initial : State := {| selected := "balanced"; starting := false |}.

Definition setSelected (v : string) : Async State unit :=
  setState (fun s => {| selected := v; starting := starting s |}).

Definition setStarting (v : bool) : Async State unit :=
  setState (fun s => {| selected := selected s; starting := v |}).

(** [handleStart], a closure over [selected]. *)
Definition handleStart (srv : Remote) (selected : string) : Async State unit :=
  setStarting true ;;
  try_catch
    (_ <- Client.startBot srv selected ;;
     navigate "/dashboard")
    (fun error =>
       console_error "Failed to start bot:" error ;;
       setStarting false).

End StrategySelect.

(* ================================================================== *)
(** * Settings (pages) *)
(* ================================================================== *)

Module Settings.

Record State := {
  loading : bool;
  saving : bool;
  settings : BotSettings
}.

Definition initial : State :=
  {| loading := true;
     saving := false;
     settings :=
       {| risk_appetite := 0.5%float;
          strategies_enabled :=
            {| flag_fullset := true; flag_endgame := true;
               flag_oracle := false; flag_rewards := true |};
          max_capital := 1000%float |} |}.

Definition setLoading (v : bool) : Async State unit :=
  setState (fun s => {| loading := v; saving := saving s; settings := settings s |}).

Definition setSaving (v : bool) : Async State unit :=
  setState (fun s => {| loading := loading s; saving := v; settings := settings s |}).

(** [setSettings(f)], the functional form; [setSettings(v)] is
    [setSettings (fun _ => v)]. *)
Definition setSettings (f : BotSettings -> BotSettings) : Async State unit :=
  setState (fun s => {| loading := loading s; saving := saving s;
                        settings := f (settings s) |}).

Definition loadSettings (srv : Remote) : Async State unit :=
  try_finally
    (try_catch
       (data <- Client.getSettings srv ;;
        setSettings (fun _ =>
          {| risk_appetite := risk_appetite data;
             strategies_enabled := strategies_enabled data;
             max_capital := max_capital data |}))
       (fun error => console_error "Failed to load settings:" error))
    (setLoading false).

(** [handleSave], a closure over the [settings] of the render it belongs
    to. *)
Definition handleSave (srv : Remote) (settings : BotSettings) : Async State unit :=
  setSaving true ;;
  try_finally
    (try_catch
       (_ <- Client.updateSettings srv settings ;;
        navigate "/dashboard")
       (fun error => console_error "Failed to save settings:" error))
    (setSaving false).

(** A click on "Save Changes" in the current render. *)
Definition clickSave (srv : Remote) : Async State unit :=
  fun w => handleSave srv (settings (ui w)) w.

Definition getRiskLabel (value : number) : string :=
  if (value <? 0.33)%float then "Conservative"
  else if (value <? 0.66)%float then "Balanced"
  else "Aggressive".

(** The slider's [onChange]: [{ ...s, risk_appetite: v / 100 }]. *)
Definition onRiskChange (v : number) : Async State unit :=
  setSettings (fun s => {| risk_appetite := (v / 100)%float;
                           strategies_enabled := strategies_enabled s;
                           max_capital := max_capital s |}).

(** A strategy toggle's [onChange]. *)
Definition onStrategyChange (key : StrategyType) (checked : bool) : Async State unit :=
  setSettings (fun s => {| risk_appetite := risk_appetite s;
                           strategies_enabled := set_flag (strategies_enabled s) key checked;
                           max_capital := max_capital s |}).

(** The update of the Maximum Capital input's [onChange], on the text
    [e.target.value]:
    [{ ...s, max_capital: parseFloat(e.target.value) || 0 }].
    The element is an [<input type="number">]: the texts it hands over are
    those of [NumberInput.value] below. *)
Definition withMaxCapital (text : string) (s : BotSettings) : BotSettings :=
  {| risk_appetite := risk_appetite s;
     strategies_enabled := strategies_enabled s;
     max_capital := or_else (parseFloat text) 0%float |}.

Definition onMaxCapitalChange (text : string) : Async State unit :=
  setSettings (withMaxCapital text).

Inductive View :=
| LoadingScreen
| Form (riskLabel : string) (draft : BotSettings) (saveLabel : string) (saveDisabled : bool).

Definition render (s : State) : View :=
  if loading s then LoadingScreen
  else Form (getRiskLabel (risk_appetite (settings s))) (settings s)
            (if saving s then "Saving..." else "Save Changes") (saving s).

End Settings.

(* ================================================================== *)
(** * The number input of the settings form (DOM) *)
(* ================================================================== *)

Module NumberInput.

(** What may follow the digits of a valid floating-point number: nothing,
    or an exponent ("e" or "E", an optional sign, one or more digits) and
    nothing after it. *)
Definition exponentOk (s : string) : bool :=
  match s with
  | EmptyString => true
  | String c r =>
      if (Ascii.eqb c "e" || Ascii.eqb c "E")%char then
        let r' := match r with
                  | String "-" t => t
                  | String "+" t => t
                  | _ => r
                  end in
        let '(_, len, rest) := scanDigits r' 0 0 in
        match len, rest with
        | S _, EmptyString => true
        | _, _ => false
        end
      else false
  end.

(** A valid floating-point number of the HTML standard: an optional "-";
    one or more digits, or a "." followed by one or more digits, or both in
    this order; an optional exponent; nothing before and nothing after. *)
Definition isValidFloatingPointNumber (s : string) : bool :=
  let s1 := match s with
            | String "-" r => r
            | _ => s
            end in
  let '(_, ilen, r1) := scanDigits s1 0 0 in
  match r1 with
  | String "." r =>
      let '(_, flen, r2) := scanDigits r 0 0 in
      match flen with
      | O => false
      | S _ => exponentOk r2
      end
  | _ =>
      match ilen with
      | O => false
      | S _ => exponentOk r1
      end
  end.

(** The [value] of an [<input type="number">] in which [typed] was entered
    (value sanitization): the text itself when it is a valid floating-point
    number whose value is a finite Number, and the empty string otherwise,
    so for text that is no number and for a numeral that overflows. *)
Definition value (typed : string) : string :=
  if (isValidFloatingPointNumber typed && is_finite (parseFloat typed))%bool
  then typed
  else "".

End NumberInput.

Module MaxCapitalInput.


End MaxCapitalInput.

(* ================================================================== *)
(** * Stat and Slider (components/ui) *)
(* ================================================================== *)

Module Stat.

(** [positive ? 'text-profit' : negative ? 'text-loss' : 'text-text-primary'];
    a flag that is not passed is [undefined], which is falsy: [false]. *)
Definition valueColor (positive negative : bool) : string :=
  if positive then "text-profit"
  else if negative then "text-loss"
  else "text-text-primary".

End Stat.

Module Slider.

(** [((value - min) / (max - min)) * 100], the filled part of the track. *)
Definition percentage (value min max : number) : number :=
  (((value - min) / (max - min)) * 100)%float.

End Slider.

(* ================================================================== *)
(** * What the pages pass to the primitives *)
(* ================================================================== *)

Module PortfolioStats.

(** The colour of the "Total P&L" stat of PortfolioChart:
    [positive={portfolio.total_pnl >= 0} negative={portfolio.total_pnl < 0}]. *)
Definition totalPnlColor (portfolio : PortfolioSummary) : string :=
  Stat.valueColor (0 <=? total_pnl portfolio)%float (total_pnl portfolio <? 0)%float.

End PortfolioStats.

Module TradingStats.

(** The class of a P&L or return figure of the dashboard's "Trading Stats"
    card: [`font-mono ${x >= 0 ? 'text-profit' : 'text-loss'}`]. *)
Definition figureClass (x : number) : string :=
  "font-mono " ++ (if (0 <=? x)%float then "text-profit" else "text-loss").

(** The text of the realized and unrealized P&L figures:
    [{x >= 0 ? '+' : ''}${x.toFixed(2)}]. *)
Definition pnlText (x : number) : string :=
  (if (0 <=? x)%float then "+" else "") ++ "$" ++ Number_toFixed x 2.

(** The text of the return figure: [{x >= 0 ? '+' : ''}{x.toFixed(2)}%]. *)
Definition returnText (x : number) : string :=
  (if (0 <=? x)%float then "+" else "") ++ Number_toFixed x 2 ++ "%".

End TradingStats.

Module SettingsView.

(** The [value] the settings page passes to its slider:
    [settings.risk_appetite * 100]. *)
Definition sliderValue (s : BotSettings) : number :=
  (risk_appetite s * 100)%float.

(** The filled part of that slider, whose range is [min={0} max={100}]. *)
Definition sliderPercentage (s : BotSettings) : number :=
  Slider.percentage (sliderValue s) 0%float 100%float.

End SettingsView.

(* ================================================================== *)
(** * Routes and navigation buttons (App.tsx and the pages) *)
(* ================================================================== *)

Module App.

Inductive Page := WelcomePage | StrategySelectPage | DashboardPage | SettingsPage.

(** The [<Route path=... element=... />] table. *)
Definition routes : list (string * Page) :=
  [("/", WelcomePage);
   ("/onboard/strategy", StrategySelectPage);
   ("/dashboard", DashboardPage);
   ("/settings", SettingsPage)].

(** [<Route path="*" element={<Navigate to="/" replace />} />]. *)
Definition fallback : string := "/".

End App.

Module NavButtons.
Section WithState.
Context {S : Type}.

(** Welcome: "Get Started" and "Skip to Dashboard". *)
Definition welcomeGetStarted : Async S unit := navigate "/onboard/strategy".
Definition welcomeSkip : Async S unit := navigate "/dashboard".

(** StrategySelect: "Skip Setup". *)
Definition strategySkip : Async S unit := navigate "/dashboard".

(** Dashboard: "Settings". *)
Definition dashboardSettings : Async S unit := navigate "/settings".

(** Settings: "Back to Dashboard" and "Cancel". *)
Definition settingsBack : Async S unit := navigate "/dashboard".
Definition settingsCancel : Async S unit := navigate "/dashboard".

End WithState.
End NavButtons.

Module StrategyCards.

(** A click on the [i]-th preset card, [onClick={() => setSelected(preset.id)}];
    the cards are [STRATEGY_PRESETS.map(...)], so there is none beyond the
    table. *)
Definition clickCard (i : nat) : Async StrategySelect.State unit :=
  match nth_error STRATEGY_PRESETS i with
  | Some preset => StrategySelect.setSelected (preset_id preset)
  | None => ret tt
  end.

(** A click on "Start Paper Trading" in the current render. *)
Definition clickStart (srv : Remote) : Async StrategySelect.State unit :=
  fun w => StrategySelect.handleStart srv (StrategySelect.selected (ui w)) w.

End StrategyCards.

(* ================================================================== *)
(** * Notions used to state the properties *)
(* ================================================================== *)

(** The start and stop commands among a run of effects. *)
Definition isCommand (e : Effect) : bool :=
  match e with
  | Http (POST_bot_start _) => true
  | Http POST_bot_stop => true
  | _ => false
  end.

Definition commands (l : list Effect) : list Effect := filter isCommand l.

(** The status polls among a run of effects. *)
Definition isStatusPoll (e : Effect) : bool :=
  match e with
  | Http GET_bot_status => true
  | _ => false
  end.

(** What a handler adds to the effects of the world it starts from. *)
Definition issued {S A} (m : Async S A) (w : World S) : list Effect :=
  skipn (List.length (effects w)) (effects (snd (m w))).

(** The coordinator as the specification words it, for comparison with
    [Dashboard.handleStartStop]: stop when running or scanning, otherwise
    start with the preset passed in. *)
Definition toggle_spec (currentStatus : BotStatus) (selectedPreset : string) : list Effect :=
  match currentStatus with
  | running | scanning => [Http POST_bot_stop]
  | stopped => [Http (POST_bot_start selectedPreset)]
  end.

(** The running value of the mock series as the specification words it:
    [steps] perturbations by [(draw - 0.45) * 10], the first of them with the
    draw of iteration [i]. *)
Fixpoint walk (random : nat -> number) (i : nat) (value : number) (steps : nat) : number :=
  match steps with
  | O => value
  | S k => walk random (S i) (value + (random i - 0.45) * 10)%float k
  end.

(** The hour tags "00:00" .. "23:00". *)
Definition hourTags : list string :=
  ["00:00"; "01:00"; "02:00"; "03:00"; "04:00"; "05:00"; "06:00"; "07:00";
   "08:00"; "09:00"; "10:00"; "11:00"; "12:00"; "13:00"; "14:00"; "15:00";
   "16:00"; "17:00"; "18:00"; "19:00"; "20:00"; "21:00"; "22:00"; "23:00"].

(** The navigations of a run of effects all go to declared routes. *)
Definition navigatesWithinRoutes (l : list Effect) : Prop :=
  forall path, In (Navigate path) l -> In path (map fst App.routes).

(** The HTTP requests among a run of effects. *)
Definition requestsOf (l : list Effect) : list Request :=
  flat_map (fun e => match e with Http r => [r] | _ => [] end) l.

(** A slider position: the Number for [n]. *)
Definition position (n : nat) : number := Z_to_number (Z.of_nat n).

(** One edit of the settings form. *)
Inductive Edit :=
| EditRisk (v : number)
| EditStrategy (key : StrategyType) (checked : bool)
| EditMaxCapital (text : string).

Definition applyEdit (e : Edit) : Async Settings.State unit :=
  match e with
  | EditRisk v => Settings.onRiskChange v
  | EditStrategy key checked => Settings.onStrategyChange key checked
  | EditMaxCapital text => Settings.onMaxCapitalChange text
  end.

Fixpoint applyEdits (es : list Edit) : Async Settings.State unit :=
  match es with
  | [] => ret tt
  | e :: es' => applyEdit e ;; applyEdits es'
  end.

(** What one edit makes of a draft. *)
Definition editDraft (e : Edit) (s : BotSettings) : BotSettings :=
  match e with
  | EditRisk v =>
      {| risk_appetite := (v / 100)%float;
         strategies_enabled := strategies_enabled s;
         max_capital := max_capital s |}
  | EditStrategy key checked =>
      {| risk_appetite := risk_appetite s;
         strategies_enabled := set_flag (strategies_enabled s) key checked;
         max_capital := max_capital s |}
  | EditMaxCapital text => Settings.withMaxCapital text s
  end.

(** A series of clicks on preset cards. *)
Fixpoint clickCards (clicks : list nat) : Async StrategySelect.State unit :=
  match clicks with
  | [] => ret tt
  | i :: clicks' => StrategyCards.clickCard i ;; clickCards clicks'
  end.

(** A tick of the poll one of whose fetches fails. *)
Definition failingTick (srv : Remote) : Prop :=
  (exists e, bot_status_reply srv = Throw e) \/
  (exists e, bot_activity_reply srv 20%float = Throw e).

(** ** Sample data *)

Definition samplePortfolio : PortfolioSummary :=
  {| total_value := 1000%float; cash_balance := 600%float;
     positions_value := 400%float; total_pnl := 12.5%float;
     total_return_pct := 1.25%float; realized_pnl := 10%float;
     unrealized_pnl := 2.5%float; num_open_positions := 3%float;
     total_trades := 7%float |}.

Definition sampleStatus (b : BotStatus) : StatusResponse :=
  {| bot_status := b; mode := "paper"; portfolio := samplePortfolio;
     active_strategies := ["fullset"]; uptime_seconds := 42%float |}.

Definition sampleEntry : ActivityLogEntry :=
  {| timestamp := "2024-01-01T00:00:00Z"; type := scan;
     message := "Scanned 12 markets" |}.

Definition sampleSettings : BotSettings :=
  {| risk_appetite := 0.8%float;
     strategies_enabled :=
       {| flag_fullset := false; flag_endgame := true;
          flag_oracle := true; flag_rewards := false |};
     max_capital := 2500%float |}.

(** A remote all of whose endpoints answer; the bot is in state [b] and the
    activity log has one entry. *)
Definition remoteUp (b : BotStatus) : Remote :=
  {| bot_status_reply := Normal (sampleStatus b);
     bot_start_reply := fun _ => Normal {| reply_message := "Bot started" |};
     bot_stop_reply := Normal {| reply_message := "Bot stopped" |};
     opportunities_reply := fun _ _ => Normal [];
     bot_activity_reply := fun _ => Normal [sampleEntry];
     settings_reply := Normal sampleSettings;
     update_settings_reply := fun s => Normal s |}.

(** The same remote with [GET /bot/status] failing. *)
Definition remoteStatusDown : Remote :=
  {| bot_status_reply := Throw "Request failed with status code 503";
     bot_start_reply := bot_start_reply (remoteUp stopped);
     bot_stop_reply := bot_stop_reply (remoteUp stopped);
     opportunities_reply := opportunities_reply (remoteUp stopped);
     bot_activity_reply := bot_activity_reply (remoteUp stopped);
     settings_reply := settings_reply (remoteUp stopped);
     update_settings_reply := update_settings_reply (remoteUp stopped) |}.

(** A remote that holds the settings [b]. *)
Definition remoteHolding (b : BotSettings) : Remote :=
  {| bot_status_reply := bot_status_reply (remoteUp stopped);
     bot_start_reply := bot_start_reply (remoteUp stopped);
     bot_stop_reply := bot_stop_reply (remoteUp stopped);
     opportunities_reply := opportunities_reply (remoteUp stopped);
     bot_activity_reply := bot_activity_reply (remoteUp stopped);
     settings_reply := Normal b;
     update_settings_reply := update_settings_reply (remoteUp stopped) |}.

(** A remote that cannot be reached at all. *)
Definition remoteDown : Remote :=
  {| bot_status_reply := Throw "Network Error";
     bot_start_reply := fun _ => Throw "Network Error";
     bot_stop_reply := Throw "Network Error";
     opportunities_reply := fun _ _ => Throw "Network Error";
     bot_activity_reply := fun _ => Throw "Network Error";
     settings_reply := Throw "Network Error";
     update_settings_reply := fun _ => Throw "Network Error" |}.

(** The dashboard showing a bot in state [b], with an empty activity list
    and no effect issued yet. *)
Definition dashboardShowing (b : BotStatus) : World Dashboard.State :=
  {| ui := {| Dashboard.status := Some (sampleStatus b);
              Dashboard.opportunities := [];
              Dashboard.activity := [];
              Dashboard.loading := false;
              Dashboard.oppsLoading := false |};
     effects := [] |}.

(** The settings page as it is mounted. *)
Definition settingsMounted : World Settings.State :=
  {| ui := Settings.initial; effects := [] |}.

(* ================================================================== *)
(** * Order facts on binary64 values *)
(* ================================================================== *)

Section FloatOrder.

Lemma SFleb_ltb_trans (x y z : spec_float) :
  SFleb x y = true -> SFltb y z = true -> SFltb x z = true.
Proof.
  unfold SFleb, SFltb.
  destruct x as [[]|[]| |[] mx ex], y as [[]|[]| |[] my ey], z as [[]|[]| |[] mz ez];
    cbn; try discriminate; try reflexivity;
    change (Pos.compare_cont Eq) with Pos.compare;
    destruct (Z.compare_spec ex ey), (Z.compare_spec ey ez), (Z.compare_spec ex ez);
    try discriminate; try reflexivity; try lia; subst;
    destruct (Pos.compare_spec mx my), (Pos.compare_spec my mz), (Pos.compare_spec mx mz);
    cbn; try discriminate; try reflexivity; try lia.
Qed.

Lemma leb_ltb_trans (x y z : float) :
  (x <=? y)%float = true -> (y <? z)%float = true -> (x <? z)%float = true.
Proof.
  rewrite leb_spec, !ltb_spec. apply SFleb_ltb_trans.
Qed.

(** A value that is below another one is not NaN. *)
Lemma ltb_not_nan (x y : float) : (x <? y)%float = true -> is_nan x = false.
Proof.
  unfold is_nan. rewrite ltb_spec, eqb_spec. unfold SFltb, SFeqb.
  destruct (Prim2SF x) as [[]|[]| |[] mx ex], (Prim2SF y) as [[]|[]| |[] my ey];
    cbn; try discriminate; try reflexivity; intros _;
    rewrite Z.compare_refl; change (Pos.compare_cont Eq) with Pos.compare;
    rewrite Pos.compare_refl; reflexivity.
Qed.

(** A value below zero is not a zero. *)
Lemma ltb_zero_not_zero (x : float) : (x <? 0)%float = true -> is_zero x = false.
Proof.
  unfold is_zero. rewrite ltb_spec, eqb_spec. unfold SFltb, SFeqb.
  change (Prim2SF zero) with (S754_zero false). change (Prim2SF 0) with (S754_zero false).
  destruct (Prim2SF x) as [[]|[]| |[] mx ex]; cbn; try discriminate; reflexivity.
Qed.

End FloatOrder.

(* ================================================================== *)
(** * The built-ins on sample inputs *)
(* ================================================================== *)

Example Math_round_samples :
  map Math_round [0.5; 1.5; 2.5; -0.5; -1.5; -2.5; 0.49999999999999994; 95035.15; -0.2]%float
  = [1; 2; 3; -0; -1; -2; 0; 95035; -0]%float.
Proof. vm_compute. reflexivity. Qed.

Example Number_toFixed_samples :
  map (fun x => Number_toFixed x 1) [12.34; 0.25; 0.35; -1.25; 999.95; 1e21; nan]%float
  = ["12.3"; "0.3"; "0.3"; "-1.3"; "1000.0"; "1e+21"; "NaN"] /\
  map (fun x => Number_toFixed x 0) [999; 999.5; 0.5; 2.5]%float
  = ["999"; "1000"; "1"; "3"].
Proof. vm_compute. split; reflexivity. Qed.

Example parseFloat_samples :
  map parseFloat ["12.5"; "  42px"; "-5"; ".5"; "5."; "1e3"; "1e"; "0.33";
                  "Infinity"; "-1e999"; "-0"]
  = [12.5; 42; -5; 0.5; 5; 1000; 1; 0.33; infinity; neg_infinity; -0]%float /\
  map (fun t => is_nan (parseFloat t)) [""; "abc"; "."; "- 5"; "e5"]
  = [true; true; true; true; true].
Proof. vm_compute. split; reflexivity. Qed.

Example NumberInput_samples :
  map NumberInput.isValidFloatingPointNumber
      ["12.50"; "-5"; ".5"; "-.5"; "1e5"; "1E-5"; "007";
       ""; "-"; "."; "5."; "+5"; " 5"; "1e"; "1e5x"; "abc"; "Infinity"]
  = [true; true; true; true; true; true; true;
     false; false; false; false; false; false; false; false; false; false] /\
  map NumberInput.value ["12.5"; "-5"; "1e308"; "abc"; "5."; "1e999"; "-1e999"]
  = ["12.5"; "-5"; "1e308"; ""; ""; ""; ""].
Proof. vm_compute. split; reflexivity. Qed.

Example formatLiquidity_samples :
  map TopOpportunities.formatLiquidity [999; 1500; 1000]%float = ["$999"; "$1.5K"; "$1.0K"].
Proof. vm_compute. reflexivity. Qed.

Example generateMockData_sample :
  option_map (map PortfolioChart.value)
    (PortfolioChart.generateMockData (fun _ => 0.5%float) 1000.37%float)
  = Some [950.35; 950.85; 951.35; 951.85; 952.35; 952.85; 953.35; 953.85;
          954.35; 954.85; 955.35; 955.85; 956.35; 956.85; 957.35; 957.85;
          958.35; 958.85; 959.35; 959.85; 960.35; 960.85; 961.35; 1000.37]%float.
Proof. vm_compute. reflexivity. Qed.

(* ================================================================== *)
(** * Settings: risk label *)
(* ================================================================== *)

(** C8: [getRiskLabel] answers "Conservative" below 0.33, "Balanced" from
    0.33 up to but not including 0.66, and "Aggressive" from 0.66 on; 0.33 and
    0.66 themselves belong to the upper band, and the four sample points 0,
    0.33, 0.66 and 1 get "Conservative", "Balanced", "Aggressive" and
    "Aggressive". *)
Theorem C8_getRiskLabel_bands :
  (forall r : number, (r <? 0.33)%float = true ->
     Settings.getRiskLabel r = "Conservative") /\
  (forall r : number, (0.33 <=? r)%float = true -> (r <? 0.66)%float = true ->
     Settings.getRiskLabel r = "Balanced") /\
  (forall r : number, (0.66 <=? r)%float = true ->
     Settings.getRiskLabel r = "Aggressive") /\
  Settings.getRiskLabel 0%float = "Conservative" /\
  Settings.getRiskLabel 0.33%float = "Balanced" /\
  Settings.getRiskLabel 0.66%float = "Aggressive" /\
  Settings.getRiskLabel 1%float = "Aggressive".
Proof.
  repeat split; try reflexivity; unfold Settings.getRiskLabel; intros r.
  - intros ->. reflexivity.
  - intros Hlo Hhi.
    destruct (r <? 0.33)%float eqn:E.
    + pose proof (leb_ltb_trans _ _ _ Hlo E) as F. vm_compute in F. discriminate.
    + rewrite Hhi. reflexivity.
  - intros Hlo.
    destruct (r <? 0.33)%float eqn:E.
    + pose proof (leb_ltb_trans _ _ _ Hlo E) as F. vm_compute in F. discriminate.
    + destruct (r <? 0.66)%float eqn:E'; [|reflexivity].
      pose proof (leb_ltb_trans _ _ _ Hlo E') as F. vm_compute in F. discriminate.
Qed.

(** The three bands of [C8_getRiskLabel_bands] at 0.2, 0.5 and 0.9. *)
Lemma C8_getRiskLabel_bands_witness :
  Settings.getRiskLabel 0.2%float = "Conservative" /\
  Settings.getRiskLabel 0.5%float = "Balanced" /\
  Settings.getRiskLabel 0.9%float = "Aggressive".
Proof.
  destruct C8_getRiskLabel_bands as (Hc & Hb & Ha & _).
  split; [apply Hc; reflexivity|].
  split; [apply Hb; reflexivity | apply Ha; reflexivity].
Defined.

(* ================================================================== *)
(** * Settings: the Maximum Capital input *)
(* ================================================================== *)

Lemma or_else_not_nan (p : number) : is_nan (or_else p 0%float) = false.
Proof.
  unfold or_else, truthy.
  destruct (is_nan p) eqn:N; [reflexivity|].
  destruct (is_zero p); [reflexivity | exact N].
Qed.

Lemma finite_not_nan (p : number) : is_finite p = true -> is_nan p = false.
Proof.
  unfold is_finite. destruct (is_nan p); [discriminate | reflexivity].
Qed.

Lemma negative_truthy (p : number) : (p <? 0)%float = true -> truthy p = true.
Proof.
  intros H. unfold truthy.
  rewrite (ltb_not_nan _ _ H), (ltb_zero_not_zero _ H). reflexivity.
Qed.

(** What the handler stores for a text, whatever the text: never NaN;
    [parseFloat] of the text when that is neither NaN nor a zero, and 0
    otherwise; nothing else of the state is touched. *)
Lemma onMaxCapitalChange_stores (text : string) (w : World Settings.State) :
  let p := parseFloat text in
  let w' := snd (Settings.onMaxCapitalChange text w) in
  let r := max_capital (Settings.settings (ui w')) in
  is_nan r = false /\
  (truthy p = true -> r = p) /\
  (truthy p = false -> r = 0%float) /\
  (is_finite p = true -> is_zero p = false -> r = p) /\
  ((p <? 0)%float = true -> r = p) /\
  risk_appetite (Settings.settings (ui w')) = risk_appetite (Settings.settings (ui w)) /\
  strategies_enabled (Settings.settings (ui w')) = strategies_enabled (Settings.settings (ui w)) /\
  Settings.loading (ui w') = Settings.loading (ui w) /\
  Settings.saving (ui w') = Settings.saving (ui w) /\
  effects w' = effects w.
Proof.
  intros p w' r.
  assert (R : r = or_else p 0%float) by reflexivity.
  repeat split; try reflexivity; rewrite R.
  - apply or_else_not_nan.
  - unfold or_else. intros ->. reflexivity.
  - unfold or_else. intros ->. reflexivity.
  - intros F Z. unfold or_else, truthy.
    rewrite (finite_not_nan _ F), Z. reflexivity.
  - intros N. unfold or_else. rewrite (negative_truthy _ N). reflexivity.
Qed.





(* ================================================================== *)
(** * TopOpportunities: the displayed return *)
(* ================================================================== *)

(** The fallback of [displayedReturn] as the code has it: a present, truthy
    [annualized_return] is shown; an absent one gives way to [edge_pct]. *)
Lemma displayedReturn_truthy (o : Opportunity) (a : number) :
  annualized_return o = Some a -> truthy a = true ->
  TopOpportunities.displayedReturn o = Number_toFixed a 1 ++ "%".
Proof.
  intros E T. unfold TopOpportunities.displayedReturn, or_else_opt.
  rewrite E. cbn. rewrite T. reflexivity.
Qed.

Lemma displayedReturn_absent (o : Opportunity) :
  annualized_return o = None ->
  TopOpportunities.displayedReturn o = TopOpportunities.formatReturn (edge_pct o).
Proof.
  intros E. unfold TopOpportunities.displayedReturn, or_else_opt.
  rewrite E. reflexivity.
Qed.

(** C7 at an opportunity whose [annualized_return] is present and 0 and
    whose [edge_pct] is 5: the cell shows "5.0%", the percentage of
    [edge_pct], where the one-decimal percentage of the present
    [annualized_return] is "0.0%".  The sample values of the specification
    are as expected: 12.34 gives "12.3%" and [undefined] gives "N/A". *)
Theorem C7_zero_return_falls_back_to_edge :
  let o := {| id := "m1"; name := "Market"; strategy := "fullset";
              edge := 0.05%float; edge_pct := Some 5%float;
              annualized_return := Some 0%float; liquidity := 1500%float;
              days_until_resolution := None; total_cost := None;
              num_outcomes := None |} in
  TopOpportunities.displayedReturn o = "5.0%" /\
  TopOpportunities.formatReturn (annualized_return o) = "0.0%" /\
  TopOpportunities.formatReturn (Some 12.34%float) = "12.3%" /\
  TopOpportunities.formatReturn None = "N/A".
Proof.
  vm_compute. repeat split.
Qed.

(* ================================================================== *)
(** * Dashboard: one poll *)
(* ================================================================== *)

Lemma skipn_app_length {A} (l d : list A) : skipn (List.length l) (l ++ d)%list = d.
Proof.
  induction l as [|x l IH]; [reflexivity | exact IH].
Qed.

(** What [issued] gives for a handler that appends [d] to the effects. *)
Lemma issued_app {S A} (m : Async S A) (w : World S) (d : list Effect) :
  effects (snd (m w)) = (effects w ++ d)%list -> issued m w = d.
Proof.
  unfold issued. intros ->. apply skipn_app_length.
Qed.

(** A poll whose two fetches both succeed. *)
Lemma fetchData_ok (srv : Remote) (w : World Dashboard.State)
      (s : StatusResponse) (a : list ActivityLogEntry) :
  bot_status_reply srv = Normal s ->
  bot_activity_reply srv 20%float = Normal a ->
  Dashboard.fetchData srv w =
    (Normal tt,
     {| ui := {| Dashboard.status := Some s;
                 Dashboard.opportunities := Dashboard.opportunities (ui w);
                 Dashboard.activity := a;
                 Dashboard.loading := false;
                 Dashboard.oppsLoading := Dashboard.oppsLoading (ui w) |};
        effects := (effects w ++ [Http GET_bot_status; Http (GET_bot_activity 20%float)])%list |}).
Proof.
  intros Hs Ha.
  unfold Dashboard.fetchData, try_finally, try_catch, bind, Promise_all2,
    Client.getBotStatus, Client.getActivityLog, request.
  cbn. rewrite Hs, Ha. cbn. rewrite <- app_assoc. reflexivity.
Qed.

(** A poll one of whose fetches fails: nothing is set but [loading], and
    the reason goes to the console. *)
Lemma fetchData_failed (srv : Remote) (w : World Dashboard.State) :
  (exists e, bot_status_reply srv = Throw e) \/
  (exists e, bot_activity_reply srv 20%float = Throw e) ->
  exists e,
    Dashboard.fetchData srv w =
      (Normal tt,
       {| ui := {| Dashboard.status := Dashboard.status (ui w);
                   Dashboard.opportunities := Dashboard.opportunities (ui w);
                   Dashboard.activity := Dashboard.activity (ui w);
                   Dashboard.loading := false;
                   Dashboard.oppsLoading := Dashboard.oppsLoading (ui w) |};
          effects := (effects w ++ [Http GET_bot_status; Http (GET_bot_activity 20%float);
                                    ConsoleError "Failed to fetch status:" e])%list |}).
Proof.
  intros H.
  unfold Dashboard.fetchData, try_finally, try_catch, bind, Promise_all2,
    Client.getBotStatus, Client.getActivityLog, request.
  cbn.
  destruct (bot_status_reply srv) as [s|e1] eqn:Hs,
           (bot_activity_reply srv 20%float) as [a|e2] eqn:Ha.
  - destruct H as [[e H]|[e H]]; discriminate.
  - exists e2. cbn. rewrite <- !app_assoc. reflexivity.
  - exists e1. cbn. rewrite <- !app_assoc. reflexivity.
  - exists e1. cbn. rewrite <- !app_assoc. reflexivity.
Qed.

(** A poll never throws, issues no command, and what it does to the React
    state depends on that state and on the answers only. *)
Lemma fetchData_frame (srv : Remote) (w : World Dashboard.State) :
  exists d,
    fst (Dashboard.fetchData srv w) = Normal tt /\
    effects (snd (Dashboard.fetchData srv w)) = (effects w ++ d)%list /\
    commands d = [] /\
    filter isStatusPoll d = [Http GET_bot_status] /\
    forall l, ui (snd (Dashboard.fetchData srv {| ui := ui w; effects := l |}))
              = ui (snd (Dashboard.fetchData srv w)).
Proof.
  destruct (bot_status_reply srv) as [s|e1] eqn:Hs.
  - destruct (bot_activity_reply srv 20%float) as [a|e2] eqn:Ha.
    + eexists. rewrite (fetchData_ok srv w s a Hs Ha).
      repeat split; try reflexivity.
      intros l. rewrite (fetchData_ok srv _ s a Hs Ha). reflexivity.
    + destruct (fetchData_failed srv w) as [e E]; [right; eauto|].
      eexists. rewrite E. repeat split; try reflexivity.
      intros l. destruct (fetchData_failed srv {| ui := ui w; effects := l |}) as [e' E'];
        [right; eauto|]. rewrite E'. reflexivity.
  - destruct (fetchData_failed srv w) as [e E]; [left; eauto|].
    eexists. rewrite E. repeat split; try reflexivity.
    intros l. destruct (fetchData_failed srv {| ui := ui w; effects := l |}) as [e' E'];
      [left; eauto|]. rewrite E'. reflexivity.
Qed.

(** Two ticks of the interval timer are two polls in a row. *)
Lemma poll_two (srv1 srv2 : Remote) (w : World Dashboard.State) :
  snd (Dashboard.poll [srv1; srv2] w)
  = snd (Dashboard.fetchData srv2 (snd (Dashboard.fetchData srv1 w))).
Proof.
  unfold Dashboard.poll, bind, detached, ret.
  destruct (Dashboard.fetchData srv1 w) as [r1 w1]. cbn [snd].
  destruct (Dashboard.fetchData srv2 w1) as [r2 w2]. reflexivity.
Qed.

(** C9: when a fetch of a poll fails, the status and the activity list that
    were held are left as they were, and so is the page when one was shown;
    the poll itself completes normally.  The next tick whose two fetches
    succeed replaces both. *)
Theorem C9_failed_poll_keeps_snapshot (srv : Remote) (w : World Dashboard.State) :
  (exists e, bot_status_reply srv = Throw e) \/
  (exists e, bot_activity_reply srv 20%float = Throw e) ->
  let w' := snd (Dashboard.fetchData srv w) in
  fst (Dashboard.fetchData srv w) = Normal tt /\
  Dashboard.status (ui w') = Dashboard.status (ui w) /\
  Dashboard.activity (ui w') = Dashboard.activity (ui w) /\
  (Dashboard.loading (ui w) = false ->
   Dashboard.render (ui w') = Dashboard.render (ui w)) /\
  forall srv2 s a,
    bot_status_reply srv2 = Normal s ->
    bot_activity_reply srv2 20%float = Normal a ->
    let w'' := snd (Dashboard.poll [srv; srv2] w) in
    Dashboard.status (ui w'') = Some s /\
    Dashboard.activity (ui w'') = a /\
    Dashboard.render (ui w'') =
      Dashboard.Page s a (if Dashboard.isActive (Some s) then "Stop Bot" else "Start Bot").
Proof.
  intros H w'. destruct (fetchData_failed srv w H) as [e E].
  split; [rewrite E; reflexivity|].
  split; [subst w'; rewrite E; reflexivity|].
  split; [subst w'; rewrite E; reflexivity|].
  split.
  - intros L. subst w'. rewrite E. unfold Dashboard.render. cbn. rewrite L. reflexivity.
  - intros srv2 s a Hs Ha w''. subst w''.
    rewrite poll_two, (fetchData_ok srv2 _ s a Hs Ha).
    repeat split.
Qed.

(** [C9_failed_poll_keeps_snapshot] with the status endpoint down: the
    running bot stays displayed, and the next good tick shows the stopped
    one with its activity. *)
Lemma C9_failed_poll_keeps_snapshot_witness :
  Dashboard.status (ui (snd (Dashboard.fetchData remoteStatusDown (dashboardShowing running))))
    = Some (sampleStatus running) /\
  Dashboard.activity (ui (snd (Dashboard.fetchData remoteStatusDown (dashboardShowing running))))
    = [] /\
  Dashboard.status
    (ui (snd (Dashboard.poll [remoteStatusDown; remoteUp stopped] (dashboardShowing running))))
    = Some (sampleStatus stopped).
Proof.
  destruct (C9_failed_poll_keeps_snapshot remoteStatusDown (dashboardShowing running))
    as (_ & Hs & Ha & _ & Hnext).
  - left. eexists. reflexivity.
  - split; [exact Hs|]. split; [exact Ha|].
    apply (Hnext (remoteUp stopped) (sampleStatus stopped) [sampleEntry]); reflexivity.
Defined.

(** C1, as the code has it: the two fetches of a poll are awaited together,
    so when the status fetch fails and the activity-log fetch succeeds both
    the status and the activity list that were held are kept, the fetched
    activity list is not applied, and the reason of the failure goes to the
    console.  A later poll whose two fetches succeed replaces both halves. *)
Theorem C1_joined_poll_keeps_both (srv : Remote) (w : World Dashboard.State)
        (e : error) (a : list ActivityLogEntry) :
  bot_status_reply srv = Throw e ->
  bot_activity_reply srv 20%float = Normal a ->
  let w' := snd (Dashboard.fetchData srv w) in
  Dashboard.status (ui w') = Dashboard.status (ui w) /\
  Dashboard.activity (ui w') = Dashboard.activity (ui w) /\
  issued (Dashboard.fetchData srv) w =
    [Http GET_bot_status; Http (GET_bot_activity 20%float);
     ConsoleError "Failed to fetch status:" e] /\
  forall srv2 s2 a2,
    bot_status_reply srv2 = Normal s2 ->
    bot_activity_reply srv2 20%float = Normal a2 ->
    Dashboard.status (ui (snd (Dashboard.poll [srv; srv2] w))) = Some s2 /\
    Dashboard.activity (ui (snd (Dashboard.poll [srv; srv2] w))) = a2.
Proof.
  intros Hs Ha w'.
  assert (E : Dashboard.fetchData srv w =
    (Normal tt,
     {| ui := {| Dashboard.status := Dashboard.status (ui w);
                 Dashboard.opportunities := Dashboard.opportunities (ui w);
                 Dashboard.activity := Dashboard.activity (ui w);
                 Dashboard.loading := false;
                 Dashboard.oppsLoading := Dashboard.oppsLoading (ui w) |};
        effects := (effects w ++ [Http GET_bot_status; Http (GET_bot_activity 20%float);
                                  ConsoleError "Failed to fetch status:" e])%list |})).
  { unfold Dashboard.fetchData, try_finally, try_catch, bind, Promise_all2,
      Client.getBotStatus, Client.getActivityLog, request.
    cbn. rewrite Hs. cbn. rewrite <- !app_assoc. reflexivity. }
  split; [subst w'; rewrite E; reflexivity|].
  split; [subst w'; rewrite E; reflexivity|].
  split; [apply issued_app; rewrite E; reflexivity|].
  intros srv2 s2 a2 Hs2 Ha2.
  rewrite poll_two, (fetchData_ok srv2 _ s2 a2 Hs2 Ha2). split; reflexivity.
Qed.

(** [C1_joined_poll_keeps_both] with the status endpoint down and one new
    activity entry on offer. *)
Lemma C1_joined_poll_keeps_both_witness :
  Dashboard.status (ui (snd (Dashboard.fetchData remoteStatusDown (dashboardShowing running))))
    = Some (sampleStatus running) /\
  Dashboard.activity (ui (snd (Dashboard.fetchData remoteStatusDown (dashboardShowing running))))
    = [].
Proof.
  destruct (C1_joined_poll_keeps_both remoteStatusDown (dashboardShowing running)
              "Request failed with status code 503" [sampleEntry] eq_refl eq_refl)
    as (Hs & Ha & _).
  split; [exact Hs | exact Ha].
Defined.

(** C1 as it was worded fails: the status fetch fails, the activity-log
    fetch succeeds with one entry, and the activity list held after the
    poll is still the empty one, not the fetched one. *)
Lemma C1_counterexample :
  bot_status_reply remoteStatusDown = Throw "Request failed with status code 503" /\
  bot_activity_reply remoteStatusDown 20%float = Normal [sampleEntry] /\
  Dashboard.activity (ui (snd (Dashboard.fetchData remoteStatusDown (dashboardShowing running))))
    <> [sampleEntry].
Proof.
  split; [reflexivity|]. split; [reflexivity|].
  cbn. discriminate.
Qed.

(* ================================================================== *)
(** * Dashboard: the start/stop button *)
(* ================================================================== *)

(** The command succeeds: the handler goes on with a poll. *)
Lemma handleStartStop_ok (srv : Remote) (status : option StatusResponse)
      (w : World Dashboard.State) (r : CommandReply) :
  (if Dashboard.isActive status then bot_stop_reply srv
   else bot_start_reply srv "balanced") = Normal r ->
  Dashboard.handleStartStop srv status w =
    (Normal tt,
     snd (Dashboard.fetchData srv
            {| ui := ui w;
               effects := (effects w ++
                 [Http (if Dashboard.isActive status then POST_bot_stop
                        else POST_bot_start "balanced")])%list |})).
Proof.
  intros H.
  unfold Dashboard.handleStartStop, try_catch, bind, detached,
    Client.stopBot, Client.startBot, request, ret.
  destruct (Dashboard.isActive status); rewrite H;
    destruct (Dashboard.fetchData srv _); reflexivity.
Qed.

(** The command fails: the handler logs the reason and stops there. *)
Lemma handleStartStop_failed (srv : Remote) (status : option StatusResponse)
      (w : World Dashboard.State) (e : error) :
  (if Dashboard.isActive status then bot_stop_reply srv
   else bot_start_reply srv "balanced") = Throw e ->
  Dashboard.handleStartStop srv status w =
    (Normal tt,
     {| ui := ui w;
        effects := (effects w ++
          [Http (if Dashboard.isActive status then POST_bot_stop
                 else POST_bot_start "balanced");
           ConsoleError "Failed to toggle bot:" e])%list |}).
Proof.
  intros H.
  unfold Dashboard.handleStartStop, try_catch, bind, detached,
    Client.stopBot, Client.startBot, request, ret, console_error, emit.
  destruct (Dashboard.isActive status); rewrite H; cbn;
    rewrite <- app_assoc; reflexivity.
Qed.

(** The commands a click issues: the one chosen by [isActive], and no other. *)
Lemma handleStartStop_commands (srv : Remote) (status : option StatusResponse)
      (w : World Dashboard.State) :
  commands (issued (Dashboard.handleStartStop srv status) w) =
    [Http (if Dashboard.isActive status then POST_bot_stop else POST_bot_start "balanced")].
Proof.
  destruct (if Dashboard.isActive status then bot_stop_reply srv
            else bot_start_reply srv "balanced") as [r|e] eqn:R.
  - destruct (fetchData_frame srv
                {| ui := ui w;
                   effects := (effects w ++
                     [Http (if Dashboard.isActive status then POST_bot_stop
                            else POST_bot_start "balanced")])%list |})
      as (d & _ & Hd & Hc & _).
    rewrite (issued_app _ w
               (Http (if Dashboard.isActive status then POST_bot_stop
                      else POST_bot_start "balanced") :: d)).
    + unfold commands in *. cbn [filter].
      destruct (Dashboard.isActive status); cbn; rewrite Hc; reflexivity.
    + rewrite (handleStartStop_ok srv status w r R). cbn [snd].
      rewrite Hd. cbn [effects]. rewrite <- app_assoc. reflexivity.
  - rewrite (issued_app _ w
               [Http (if Dashboard.isActive status then POST_bot_stop
                      else POST_bot_start "balanced");
                ConsoleError "Failed to toggle bot:" e]).
    + destruct (Dashboard.isActive status); reflexivity.
    + rewrite (handleStartStop_failed srv status w e R). reflexivity.
Qed.

(** C3, as the code has it: whatever the remote answers, a click while the
    status is running or scanning issues exactly one stop command and no
    start command; a click in any other status (stopped, or none known yet)
    issues exactly one start command, carrying the fixed preset "balanced",
    and no stop command. *)
Theorem C3_toggle_commands (srv : Remote) (w : World Dashboard.State) :
  (forall st : StatusResponse,
     bot_status st = running \/ bot_status st = scanning ->
     commands (issued (Dashboard.handleStartStop srv (Some st)) w) = [Http POST_bot_stop]) /\
  (forall st : StatusResponse,
     bot_status st = stopped ->
     commands (issued (Dashboard.handleStartStop srv (Some st)) w)
       = [Http (POST_bot_start "balanced")]) /\
  commands (issued (Dashboard.handleStartStop srv None) w)
    = [Http (POST_bot_start "balanced")].
Proof.
  split; [|split].
  - intros st H. rewrite handleStartStop_commands.
    unfold Dashboard.isActive. destruct H as [-> | ->]; reflexivity.
  - intros st H. rewrite handleStartStop_commands.
    unfold Dashboard.isActive. rewrite H. reflexivity.
  - rewrite handleStartStop_commands. reflexivity.
Qed.

(** [C3_toggle_commands] on a running and on a stopped bot. *)
Lemma C3_toggle_commands_witness :
  commands (issued (Dashboard.handleStartStop (remoteUp running) (Some (sampleStatus running)))
                   (dashboardShowing running))
    = [Http POST_bot_stop] /\
  commands (issued (Dashboard.handleStartStop (remoteUp stopped) (Some (sampleStatus stopped)))
                   (dashboardShowing stopped))
    = [Http (POST_bot_start "balanced")].
Proof.
  destruct (C3_toggle_commands (remoteUp running) (dashboardShowing running))
    as (Hstop & _).
  destruct (C3_toggle_commands (remoteUp stopped) (dashboardShowing stopped))
    as (_ & Hstart & _).
  split.
  - apply Hstop. left. reflexivity.
  - apply Hstart. reflexivity.
Defined.

(** C3 as it was worded fails when the preset selected is not "balanced":
    with "aggressive" selected on the strategy page, whose own start button
    does send it, a click on the dashboard of a stopped bot sends
    "balanced", not what [toggle_spec] asks for. *)
Lemma C3_counterexample :
  issued (StrategySelect.handleStart (remoteUp stopped) "aggressive")
         {| ui := {| StrategySelect.selected := "aggressive";
                     StrategySelect.starting := false |};
            effects := [] |}
    = [Http (POST_bot_start "aggressive"); Navigate "/dashboard"] /\
  commands (issued (Dashboard.handleStartStop (remoteUp stopped) (Some (sampleStatus stopped)))
                   (dashboardShowing stopped))
    = [Http (POST_bot_start "balanced")] /\
  commands (issued (Dashboard.handleStartStop (remoteUp stopped) (Some (sampleStatus stopped)))
                   (dashboardShowing stopped))
    <> toggle_spec stopped "aggressive".
Proof.
  split; [reflexivity|]. split; [reflexivity|].
  cbn. discriminate.
Qed.

(** C4, as the code has it: when the start or stop command succeeds the
    handler issues one poll right after it, and the React state it leaves
    is the one that poll makes of the state before the click; when the
    command fails the handler only logs the reason: no poll is issued and
    the state is untouched.  Either way the status held afterwards is the
    one held before or the one a poll fetched, never one derived from the
    command. *)
Theorem C4_refresh_after_successful_command
        (srv : Remote) (status : option StatusResponse) (w : World Dashboard.State) :
  let reply := if Dashboard.isActive status then bot_stop_reply srv
               else bot_start_reply srv "balanced" in
  let w' := snd (Dashboard.handleStartStop srv status w) in
  (forall r, reply = Normal r ->
     filter isStatusPoll (issued (Dashboard.handleStartStop srv status) w)
       = [Http GET_bot_status] /\
     ui w' = ui (snd (Dashboard.fetchData srv w))) /\
  (forall e, reply = Throw e ->
     issued (Dashboard.handleStartStop srv status) w =
       [Http (if Dashboard.isActive status then POST_bot_stop else POST_bot_start "balanced");
        ConsoleError "Failed to toggle bot:" e] /\
     ui w' = ui w) /\
  (Dashboard.status (ui w') = Dashboard.status (ui w) \/
   exists s, bot_status_reply srv = Normal s /\ Dashboard.status (ui w') = Some s).
Proof.
  intros reply w'.
  assert (Hok : forall r, reply = Normal r ->
     filter isStatusPoll (issued (Dashboard.handleStartStop srv status) w)
       = [Http GET_bot_status] /\
     ui w' = ui (snd (Dashboard.fetchData srv w))).
  { intros r R. subst w'. rewrite (handleStartStop_ok srv status w r R). cbn [snd].
    destruct (fetchData_frame srv
                {| ui := ui w;
                   effects := (effects w ++
                     [Http (if Dashboard.isActive status then POST_bot_stop
                            else POST_bot_start "balanced")])%list |})
      as (d & _ & Hd & _ & Hp & Hui).
    split.
    - rewrite (issued_app _ w
                 (Http (if Dashboard.isActive status then POST_bot_stop
                        else POST_bot_start "balanced") :: d)).
      + cbn [filter]. destruct (Dashboard.isActive status); cbn; exact Hp.
      + rewrite (handleStartStop_ok srv status w r R). cbn [snd].
        rewrite Hd. cbn [effects]. rewrite <- app_assoc. reflexivity.
    - destruct (fetchData_frame srv w) as (_ & _ & _ & _ & _ & Hui').
      rewrite <- (Hui' (effects w ++
                     [Http (if Dashboard.isActive status then POST_bot_stop
                            else POST_bot_start "balanced")])%list).
      reflexivity. }
  assert (Hfail : forall e, reply = Throw e ->
     issued (Dashboard.handleStartStop srv status) w =
       [Http (if Dashboard.isActive status then POST_bot_stop else POST_bot_start "balanced");
        ConsoleError "Failed to toggle bot:" e] /\
     ui w' = ui w).
  { intros e R. subst w'. split.
    - apply issued_app. rewrite (handleStartStop_failed srv status w e R). reflexivity.
    - rewrite (handleStartStop_failed srv status w e R). reflexivity. }
  split; [exact Hok|]. split; [exact Hfail|].
  destruct reply as [r|e] eqn:R.
  - destruct (Hok r eq_refl) as [_ ->].
    destruct (bot_status_reply srv) as [s|e1] eqn:Hs.
    + destruct (bot_activity_reply srv 20%float) as [a|e2] eqn:Ha.
      * right. exists s. rewrite (fetchData_ok srv w s a Hs Ha). split; reflexivity.
      * left. destruct (fetchData_failed srv w) as [e E]; [right; eauto|].
        rewrite E. reflexivity.
    + left. destruct (fetchData_failed srv w) as [e E]; [left; eauto|].
      rewrite E. reflexivity.
  - destruct (Hfail e eq_refl) as [_ ->]. left. reflexivity.
Qed.

(** [C4_refresh_after_successful_command] on a stop that succeeds and on a
    stop that fails. *)
Lemma C4_refresh_after_successful_command_witness :
  filter isStatusPoll
    (issued (Dashboard.handleStartStop (remoteUp stopped) (Some (sampleStatus running)))
            (dashboardShowing running))
    = [Http GET_bot_status] /\
  issued (Dashboard.handleStartStop remoteDown (Some (sampleStatus running)))
         (dashboardShowing running)
    = [Http POST_bot_stop; ConsoleError "Failed to toggle bot:" "Network Error"].
Proof.
  destruct (C4_refresh_after_successful_command (remoteUp stopped)
              (Some (sampleStatus running)) (dashboardShowing running)) as (Hok & _).
  destruct (C4_refresh_after_successful_command remoteDown
              (Some (sampleStatus running)) (dashboardShowing running)) as (_ & Hfail & _).
  split.
  - apply (Hok {| reply_message := "Bot stopped" |}). reflexivity.
  - apply (Hfail "Network Error"). reflexivity.
Defined.

(** C4 as it was worded fails on a command that fails: the stop is rejected
    and the handler issues no status poll at all. *)
Lemma C4_counterexample :
  bot_stop_reply remoteDown = Throw "Network Error" /\
  filter isStatusPoll
    (issued (Dashboard.handleStartStop remoteDown (Some (sampleStatus running)))
            (dashboardShowing running))
    = [] /\
  ~ In (Http GET_bot_status)
       (effects (snd (Dashboard.handleStartStop remoteDown (Some (sampleStatus running))
                        (dashboardShowing running)))).
Proof.
  split; [reflexivity|]. split; [reflexivity|].
  cbn. intros [H|[H|[]]]; discriminate.
Qed.

(* ================================================================== *)
(** * Settings: load and save *)
(* ================================================================== *)

Lemma loadSettings_ok (srv : Remote) (w : World Settings.State) (data : BotSettings) :
  settings_reply srv = Normal data ->
  Settings.loadSettings srv w =
    (Normal tt,
     {| ui := {| Settings.loading := false;
                 Settings.saving := Settings.saving (ui w);
                 Settings.settings := data |};
        effects := (effects w ++ [Http GET_settings])%list |}).
Proof.
  intros H.
  unfold Settings.loadSettings, try_finally, try_catch, bind, Client.getSettings, request.
  rewrite H. destruct data. reflexivity.
Qed.

Lemma loadSettings_failed (srv : Remote) (w : World Settings.State) (e : error) :
  settings_reply srv = Throw e ->
  Settings.loadSettings srv w =
    (Normal tt,
     {| ui := {| Settings.loading := false;
                 Settings.saving := Settings.saving (ui w);
                 Settings.settings := Settings.settings (ui w) |};
        effects := (effects w ++ [Http GET_settings;
                                  ConsoleError "Failed to load settings:" e])%list |}).
Proof.
  intros H.
  unfold Settings.loadSettings, try_finally, try_catch, bind, Client.getSettings, request.
  rewrite H. cbn. rewrite <- app_assoc. reflexivity.
Qed.

Lemma handleSave_ok (srv : Remote) (draft : BotSettings) (w : World Settings.State)
      (echo : BotSettings) :
  update_settings_reply srv draft = Normal echo ->
  Settings.handleSave srv draft w =
    (Normal tt,
     {| ui := {| Settings.loading := Settings.loading (ui w);
                 Settings.saving := false;
                 Settings.settings := Settings.settings (ui w) |};
        effects := (effects w ++ [Http (POST_settings draft); Navigate "/dashboard"])%list |}).
Proof.
  intros H.
  unfold Settings.handleSave, try_finally, try_catch, bind, Client.updateSettings, request.
  cbn. rewrite H. cbn. rewrite <- app_assoc. reflexivity.
Qed.

Lemma handleSave_failed (srv : Remote) (draft : BotSettings) (w : World Settings.State)
      (e : error) :
  update_settings_reply srv draft = Throw e ->
  Settings.handleSave srv draft w =
    (Normal tt,
     {| ui := {| Settings.loading := Settings.loading (ui w);
                 Settings.saving := false;
                 Settings.settings := Settings.settings (ui w) |};
        effects := (effects w ++ [Http (POST_settings draft);
                                  ConsoleError "Failed to save settings:" e])%list |}).
Proof.
  intros H.
  unfold Settings.handleSave, try_finally, try_catch, bind, Client.updateSettings, request.
  cbn. rewrite H. cbn. rewrite <- app_assoc. reflexivity.
Qed.

(** C5, as the code has it: when loading the remote settings fails, the
    reason goes to the console, the loading flag is cleared and the draft is
    left as it was, so the form is shown with it; on a freshly mounted page
    that draft is the built-in default. *)
Theorem C5_failed_load_shows_kept_draft
        (srv : Remote) (w : World Settings.State) (e : error) :
  settings_reply srv = Throw e ->
  let w' := snd (Settings.loadSettings srv w) in
  Settings.settings (ui w') = Settings.settings (ui w) /\
  Settings.loading (ui w') = false /\
  Settings.render (ui w') =
    Settings.Form (Settings.getRiskLabel (risk_appetite (Settings.settings (ui w))))
                  (Settings.settings (ui w))
                  (if Settings.saving (ui w) then "Saving..." else "Save Changes")
                  (Settings.saving (ui w)) /\
  issued (Settings.loadSettings srv) w =
    [Http GET_settings; ConsoleError "Failed to load settings:" e] /\
  (ui w = Settings.initial ->
   Settings.render (ui w') =
     Settings.Form "Balanced" (Settings.settings Settings.initial) "Save Changes" false).
Proof.
  intros H w'. subst w'.
  split; [rewrite (loadSettings_failed srv w e H); reflexivity|].
  split; [rewrite (loadSettings_failed srv w e H); reflexivity|].
  split; [rewrite (loadSettings_failed srv w e H); reflexivity|].
  split; [apply issued_app; rewrite (loadSettings_failed srv w e H); reflexivity|].
  intros I. rewrite (loadSettings_failed srv w e H). cbn. rewrite I. reflexivity.
Qed.

(** [C5_failed_load_shows_kept_draft] on a freshly mounted page and a remote
    that cannot be reached. *)
Lemma C5_failed_load_shows_kept_draft_witness :
  Settings.render (ui (snd (Settings.loadSettings remoteDown settingsMounted))) =
    Settings.Form "Balanced" (Settings.settings Settings.initial) "Save Changes" false.
Proof.
  destruct (C5_failed_load_shows_kept_draft remoteDown settingsMounted "Network Error" eq_refl)
    as (_ & _ & _ & _ & H).
  apply H. reflexivity.
Defined.

(** C5 as it was worded fails: after a failed load the page shows the form
    filled with the built-in default draft, exactly what it shows after a
    successful load from a remote that holds those values. *)
Lemma C5_counterexample :
  settings_reply remoteDown = Throw "Network Error" /\
  Settings.render (ui (snd (Settings.loadSettings remoteDown settingsMounted))) =
    Settings.Form "Balanced" (Settings.settings Settings.initial) "Save Changes" false /\
  Settings.render (ui (snd (Settings.loadSettings remoteDown settingsMounted))) =
    Settings.render
      (ui (snd (Settings.loadSettings (remoteHolding (Settings.settings Settings.initial))
                  settingsMounted))).
Proof.
  repeat split.
Qed.

(** C6: a save sends the whole draft as the body of one [POST /settings];
    after a load that succeeded and no edit, that body is the loaded
    settings; and a save that fails leaves the draft as it was. *)
Theorem C6_save_sends_whole_draft :
  (forall (srv : Remote) (w : World Settings.State),
     exists tail,
       issued (Settings.clickSave srv) w
         = Http (POST_settings (Settings.settings (ui w))) :: tail /\
       (tail = [Navigate "/dashboard"] \/
        exists e, tail = [ConsoleError "Failed to save settings:" e])) /\
  (forall (srv1 srv2 : Remote) (w : World Settings.State) (data : BotSettings),
     settings_reply srv1 = Normal data ->
     exists tail,
       issued (Settings.clickSave srv2) (snd (Settings.loadSettings srv1 w))
         = Http (POST_settings data) :: tail) /\
  (forall (srv : Remote) (w : World Settings.State) (e : error),
     update_settings_reply srv (Settings.settings (ui w)) = Throw e ->
     Settings.settings (ui (snd (Settings.clickSave srv w))) = Settings.settings (ui w)).
Proof.
  assert (Hsend : forall (srv : Remote) (w : World Settings.State),
     exists tail,
       issued (Settings.clickSave srv) w
         = Http (POST_settings (Settings.settings (ui w))) :: tail /\
       (tail = [Navigate "/dashboard"] \/
        exists e, tail = [ConsoleError "Failed to save settings:" e])).
  { intros srv w. unfold Settings.clickSave.
    destruct (update_settings_reply srv (Settings.settings (ui w))) as [echo|e] eqn:R.
    - exists [Navigate "/dashboard"]. split; [|left; reflexivity].
      apply issued_app. rewrite (handleSave_ok srv _ w echo R). reflexivity.
    - exists [ConsoleError "Failed to save settings:" e]. split; [|right; eauto].
      apply issued_app. rewrite (handleSave_failed srv _ w e R). reflexivity. }
  split; [exact Hsend|]. split.
  - intros srv1 srv2 w data H.
    destruct (Hsend srv2 (snd (Settings.loadSettings srv1 w))) as (tail & E & _).
    exists tail. rewrite E. rewrite (loadSettings_ok srv1 w data H). reflexivity.
  - intros srv w e R. unfold Settings.clickSave.
    rewrite (handleSave_failed srv _ w e R). reflexivity.
Qed.

(** [C6_save_sends_whole_draft] on a load of the sample settings followed
    by a save, and on a save of the default draft that fails. *)
Lemma C6_save_sends_whole_draft_witness :
  (exists tail,
     issued (Settings.clickSave (remoteUp stopped))
            (snd (Settings.loadSettings (remoteUp stopped) settingsMounted))
       = Http (POST_settings sampleSettings) :: tail) /\
  Settings.settings (ui (snd (Settings.clickSave remoteDown settingsMounted)))
    = Settings.settings Settings.initial.
Proof.
  destruct C6_save_sends_whole_draft as (_ & Hload & Hfail).
  split.
  - apply (Hload (remoteUp stopped) (remoteUp stopped) settingsMounted sampleSettings).
    reflexivity.
  - apply (Hfail remoteDown settingsMounted "Network Error"). reflexivity.
Defined.

(* ================================================================== *)
(** * PortfolioChart: the mock series *)
(* ================================================================== *)

(** The loop appends, for each of its [n] iterations, the hour tag of the
    counter and the rounded running value. *)
Lemma mockLoop_unroll (random : nat -> number) (n : nat) :
  forall (i : nat) (v : number) (data : list PortfolioChart.ChartPoint),
    PortfolioChart.mockLoop random i n v data =
      (data ++ map (fun j => {| PortfolioChart.time :=
                                  padStart (nat_toString (i + j)) 2 "0" ++ ":00";
                                PortfolioChart.value :=
                                  PortfolioChart.round2 (walk random i v j) |})
                   (seq 0 n))%list.
Proof.
  induction n as [|n IH]; intros i v data; cbn [PortfolioChart.mockLoop seq map].
  - rewrite app_nil_r. reflexivity.
  - rewrite IH, <- app_assoc. cbn [app walk]. rewrite Nat.add_0_r.
    do 2 f_equal. rewrite <- seq_shift, map_map.
    apply map_ext. intros j. rewrite Nat.add_succ_r. reflexivity.
Qed.

Lemma mockLoop_length (random : nat -> number) (n i : nat) (v : number)
      (data : list PortfolioChart.ChartPoint) :
  List.length (PortfolioChart.mockLoop random i n v data) = List.length data + n.
Proof.
  rewrite mockLoop_unroll, length_app, length_map, length_seq. reflexivity.
Qed.

(** The shape of the mock series for any current value and any draws: 24
    points, tagged "00:00" to "23:00" in this order; the last value is the
    current value itself, and the value of every other point is [round2] of
    the running value of the walk at that point. *)
Lemma generateMockData_structure (random : nat -> number) (V : number) :
  exists data,
    PortfolioChart.generateMockData random V = Some data /\
    List.length data = 24 /\
    map PortfolioChart.time data = hourTags /\
    option_map PortfolioChart.value (nth_error data 0)
      = Some (PortfolioChart.round2 (V * 0.95)%float) /\
    option_map PortfolioChart.value (nth_error data 23) = Some V /\
    forall i, i < 23 ->
      option_map PortfolioChart.value (nth_error data i)
        = Some (PortfolioChart.round2 (walk random 0 (V * 0.95)%float i)).
Proof.
  unfold PortfolioChart.generateMockData.
  rewrite mockLoop_length, mockLoop_unroll.
  cbn [app seq map List.length Nat.add Nat.sub].
  unfold PortfolioChart.set_value_at.
  cbn [nth_error firstn skipn app PortfolioChart.time].
  eexists. split; [reflexivity|].
  split; [reflexivity|].
  split; [cbn [map PortfolioChart.time]; vm_compute; reflexivity|].
  split; [reflexivity|].
  split; [reflexivity|].
  intros i Hi.
  do 23 (destruct i as [|i]; [reflexivity|]).
  lia.
Qed.

(** C2 at a current value of 1e308, which is at least 0 and whose 0.95-fold
    is a finite Number: the series has its 24 points and ends on 1e308, but
    [value * 100] overflows inside the rounding, so the first value is
    +Infinity whatever the draws are, and not 0.95 * 1e308 rounded to 2
    decimals; with every draw equal to 0.5, each of the 23 values before the
    last is +Infinity. *)
Theorem C2_overflow_at_1e308 (random : nat -> number) :
  (0 <=? 1e308)%float = true /\
  is_finite (1e308 * 0.95)%float = true /\
  (exists data,
     PortfolioChart.generateMockData random 1e308%float = Some data /\
     List.length data = 24 /\
     option_map PortfolioChart.value (nth_error data 0) = Some infinity /\
     option_map PortfolioChart.value (nth_error data 23) = Some 1e308%float) /\
  (exists data,
     PortfolioChart.generateMockData (fun _ => 0.5%float) 1e308%float = Some data /\
     forall i, i < 23 ->
       option_map PortfolioChart.value (nth_error data i) = Some infinity).
Proof.
  split; [vm_compute; reflexivity|].
  split; [vm_compute; reflexivity|].
  split.
  - destruct (generateMockData_structure random 1e308%float)
      as (data & E & L & _ & H0 & H23 & _).
    exists data. split; [exact E|]. split; [exact L|]. split; [|exact H23].
    rewrite H0. vm_compute. reflexivity.
  - eexists. split; [vm_compute; reflexivity|].
    intros i Hi.
    do 23 (destruct i as [|i]; [reflexivity|]).
    lia.
Qed.

(* ================================================================== *)
(** * Dashboard: opportunities, mount and the interval timer *)
(* ================================================================== *)

Lemma fetchOpportunities_ok (srv : Remote) (w : World Dashboard.State)
      (opps : list Opportunity) :
  opportunities_reply srv "fullset"
    {| limit := Some 5%float; min_edge := None; min_liquidity := None; max_days := None |}
    = Normal opps ->
  Dashboard.fetchOpportunities srv w =
    (Normal tt,
     {| ui := {| Dashboard.status := Dashboard.status (ui w);
                 Dashboard.opportunities := opps;
                 Dashboard.activity := Dashboard.activity (ui w);
                 Dashboard.loading := Dashboard.loading (ui w);
                 Dashboard.oppsLoading := false |};
        effects := (effects w ++
          [Http (GET_opportunities "fullset"
                   {| limit := Some 5%float; min_edge := None;
                      min_liquidity := None; max_days := None |})])%list |}).
Proof.
  intros H.
  unfold Dashboard.fetchOpportunities, try_finally, try_catch, bind,
    Client.getOpportunities, request.
  cbn. rewrite H. reflexivity.
Qed.

Lemma fetchOpportunities_failed (srv : Remote) (w : World Dashboard.State) (e : error) :
  opportunities_reply srv "fullset"
    {| limit := Some 5%float; min_edge := None; min_liquidity := None; max_days := None |}
    = Throw e ->
  Dashboard.fetchOpportunities srv w =
    (Normal tt,
     {| ui := {| Dashboard.status := Dashboard.status (ui w);
                 Dashboard.opportunities := Dashboard.opportunities (ui w);
                 Dashboard.activity := Dashboard.activity (ui w);
                 Dashboard.loading := Dashboard.loading (ui w);
                 Dashboard.oppsLoading := false |};
        effects := (effects w ++
          [Http (GET_opportunities "fullset"
                   {| limit := Some 5%float; min_edge := None;
                      min_liquidity := None; max_days := None |});
           ConsoleError "Failed to fetch opportunities:" e])%list |}).
Proof.
  intros H.
  unfold Dashboard.fetchOpportunities, try_finally, try_catch, bind,
    Client.getOpportunities, request.
  cbn. rewrite H. cbn. rewrite <- app_assoc. reflexivity.
Qed.

(** The fetch of the opportunities completes normally whatever the remote
    answers, asks once for the five best "fullset" opportunities, and ends
    with the scanning flag cleared; the list is replaced by the answer, or
    kept and the reason logged when the request fails.  Status, activity and
    the loading flag are not touched. *)
Theorem fetchOpportunities_outcome (srv : Remote) (w : World Dashboard.State) :
  let query := GET_opportunities "fullset"
                 {| limit := Some 5%float; min_edge := None;
                    min_liquidity := None; max_days := None |} in
  let w' := snd (Dashboard.fetchOpportunities srv w) in
  fst (Dashboard.fetchOpportunities srv w) = Normal tt /\
  Dashboard.oppsLoading (ui w') = false /\
  Dashboard.status (ui w') = Dashboard.status (ui w) /\
  Dashboard.activity (ui w') = Dashboard.activity (ui w) /\
  Dashboard.loading (ui w') = Dashboard.loading (ui w) /\
  match opportunities_reply srv "fullset"
          {| limit := Some 5%float; min_edge := None;
             min_liquidity := None; max_days := None |} with
  | Normal opps =>
      Dashboard.opportunities (ui w') = opps /\
      issued (Dashboard.fetchOpportunities srv) w = [Http query]
  | Throw e =>
      Dashboard.opportunities (ui w') = Dashboard.opportunities (ui w) /\
      issued (Dashboard.fetchOpportunities srv) w =
        [Http query; ConsoleError "Failed to fetch opportunities:" e]
  end.
Proof.
  intros query w'. subst query w'.
  destruct (opportunities_reply srv "fullset" _) as [opps|e] eqn:R.
  - rewrite (fetchOpportunities_ok srv w opps R). repeat split.
    apply issued_app. rewrite (fetchOpportunities_ok srv w opps R). reflexivity.
  - rewrite (fetchOpportunities_failed srv w e R). repeat split.
    apply issued_app. rewrite (fetchOpportunities_failed srv w e R). reflexivity.
Qed.

(** What a poll adds to the effects and what it leaves alone. *)
Lemma fetchData_effects (srv : Remote) (w : World Dashboard.State) :
  exists d,
    Dashboard.fetchData srv w = (Normal tt, snd (Dashboard.fetchData srv w)) /\
    effects (snd (Dashboard.fetchData srv w)) = (effects w ++ d)%list /\
    requestsOf d = [GET_bot_status; GET_bot_activity 20%float] /\
    commands d = [] /\
    (forall path, ~ In (Navigate path) d) /\
    Dashboard.loading (ui (snd (Dashboard.fetchData srv w))) = false /\
    Dashboard.opportunities (ui (snd (Dashboard.fetchData srv w)))
      = Dashboard.opportunities (ui w) /\
    Dashboard.oppsLoading (ui (snd (Dashboard.fetchData srv w)))
      = Dashboard.oppsLoading (ui w).
Proof.
  assert (N : forall (l : list Effect) path,
             (forall x, In x l -> match x with Navigate _ => False | _ => True end) ->
             ~ In (Navigate path) l).
  { intros l path H I. exact (H _ I). }
  destruct (bot_status_reply srv) as [s|e1] eqn:Hs.
  - destruct (bot_activity_reply srv 20%float) as [a|e2] eqn:Ha.
    + eexists. rewrite (fetchData_ok srv w s a Hs Ha). cbn [snd ui effects].
      repeat split. intros path. apply N. intros x [<-|[<-|[]]]; exact I.
    + destruct (fetchData_failed srv w) as [e E]; [right; eauto|].
      eexists. rewrite E. cbn [snd ui effects].
      repeat split. intros path. apply N. intros x [<-|[<-|[<-|[]]]]; exact I.
  - destruct (fetchData_failed srv w) as [e E]; [left; eauto|].
    eexists. rewrite E. cbn [snd ui effects].
    repeat split. intros path. apply N. intros x [<-|[<-|[<-|[]]]]; exact I.
Qed.

(** On mount the dashboard completes normally whatever the remote answers,
    sends exactly three requests, in this order: the status, the last 20
    activity entries and the five best "fullset" opportunities; it sends no
    command, and it ends with both busy flags cleared. *)
Theorem mount_requests (srv : Remote) (w : World Dashboard.State) :
  let w' := snd (Dashboard.mount srv w) in
  fst (Dashboard.mount srv w) = Normal tt /\
  requestsOf (issued (Dashboard.mount srv) w) =
    [GET_bot_status; GET_bot_activity 20%float;
     GET_opportunities "fullset"
       {| limit := Some 5%float; min_edge := None;
          min_liquidity := None; max_days := None |}] /\
  commands (issued (Dashboard.mount srv) w) = [] /\
  Dashboard.loading (ui w') = false /\
  Dashboard.oppsLoading (ui w') = false.
Proof.
  intros w'. subst w'.
  destruct (fetchData_effects srv w) as (d & E & Hd & Hr & Hc & _ & Hl & _).
  assert (Hrun : Dashboard.mount srv w =
                 (Normal tt,
                  snd (Dashboard.fetchOpportunities srv (snd (Dashboard.fetchData srv w))))).
  { unfold Dashboard.mount, bind, detached.
    destruct (Dashboard.fetchData srv w) as [r1 w1]. cbn [snd].
    destruct (Dashboard.fetchOpportunities srv w1) as [r2 w2]. reflexivity. }
  unfold issued. rewrite Hrun. cbn [fst snd].
  set (w1 := snd (Dashboard.fetchData srv w)) in *.
  split; [reflexivity|].
  destruct (opportunities_reply srv "fullset"
              {| limit := Some 5%float; min_edge := None;
                 min_liquidity := None; max_days := None |}) as [opps|e] eqn:R.
  - rewrite (fetchOpportunities_ok srv w1 opps R). cbn [snd ui effects].
    rewrite Hd, <- app_assoc, skipn_app_length.
    unfold requestsOf, commands in *.
    rewrite flat_map_app, filter_app, Hr, Hc. repeat split; exact Hl.
  - rewrite (fetchOpportunities_failed srv w1 e R). cbn [snd ui effects].
    rewrite Hd, <- app_assoc, skipn_app_length.
    unfold requestsOf, commands in *.
    rewrite flat_map_app, filter_app, Hr, Hc. repeat split; exact Hl.
Qed.

Lemma poll_cons (srv : Remote) (ticks : list Remote) (w : World Dashboard.State) :
  Dashboard.poll (srv :: ticks) w = Dashboard.poll ticks (snd (Dashboard.fetchData srv w)).
Proof.
  cbn [Dashboard.poll]. unfold bind, detached.
  destruct (Dashboard.fetchData srv w) as [r w1]. reflexivity.
Qed.

Lemma poll_app (ticks1 ticks2 : list Remote) (w : World Dashboard.State) :
  Dashboard.poll (ticks1 ++ ticks2) w = Dashboard.poll ticks2 (snd (Dashboard.poll ticks1 w)).
Proof.
  revert w. induction ticks1 as [|srv ticks1 IH]; intros w.
  - reflexivity.
  - cbn [app]. rewrite !poll_cons. apply IH.
Qed.

(** Ticks that all fail keep the status and the activity list. *)
Lemma poll_failing_keeps (ticks : list Remote) :
  Forall failingTick ticks ->
  forall w : World Dashboard.State,
    Dashboard.status (ui (snd (Dashboard.poll ticks w))) = Dashboard.status (ui w) /\
    Dashboard.activity (ui (snd (Dashboard.poll ticks w))) = Dashboard.activity (ui w).
Proof.
  induction 1 as [|srv ticks Hsrv _ IH]; intros w.
  - split; reflexivity.
  - rewrite poll_cons. destruct (IH (snd (Dashboard.fetchData srv w))) as [-> ->].
    destruct (fetchData_failed srv w Hsrv) as [e E]. rewrite E. split; reflexivity.
Qed.

(** As long as no poll has succeeded the dashboard stays on its loading
    screen: after any number of ticks that all fail, however many, the page
    mounted with no status still shows "Loading...", although a first tick
    has cleared the loading flag. *)
Theorem loading_screen_until_first_good_poll (ticks : list Remote) :
  Forall failingTick ticks ->
  let w' := snd (Dashboard.poll ticks {| ui := Dashboard.initial; effects := [] |}) in
  Dashboard.render (ui w') = Dashboard.LoadingScreen /\
  Dashboard.status (ui w') = None /\
  (ticks <> [] -> Dashboard.loading (ui w') = false).
Proof.
  intros H w'.
  destruct (poll_failing_keeps ticks H {| ui := Dashboard.initial; effects := [] |})
    as [Hs _].
  split; [|split].
  - unfold Dashboard.render. subst w'. rewrite Hs. cbn.
    destruct (Dashboard.loading _); reflexivity.
  - exact Hs.
  - intros Hne. subst w'.
    destruct (exists_last Hne) as (front & srv & ->).
    rewrite poll_app, poll_cons. cbn [Dashboard.poll ret snd].
    destruct (fetchData_effects srv
                (snd (Dashboard.poll front {| ui := Dashboard.initial; effects := [] |})))
      as (d & _ & _ & _ & _ & _ & Hl & _).
    exact Hl.
Qed.

(** [loading_screen_until_first_good_poll] on two ticks against an
    unreachable remote. *)
Lemma loading_screen_until_first_good_poll_witness :
  Dashboard.render
    (ui (snd (Dashboard.poll [remoteDown; remoteStatusDown]
                {| ui := Dashboard.initial; effects := [] |})))
  = Dashboard.LoadingScreen.
Proof.
  destruct (loading_screen_until_first_good_poll [remoteDown; remoteStatusDown])
    as (H & _).
  - constructor; [left; eexists; reflexivity|].
    constructor; [left; eexists; reflexivity|]. constructor.
  - exact H.
Defined.

(** The snapshot shown is that of the last tick that succeeded: after any
    ticks, one tick whose two fetches succeed, and then any number of ticks
    that fail, the page shows the status and the activity list of the
    successful one. *)
Theorem last_good_poll_is_shown
        (before after : list Remote) (srv : Remote) (w : World Dashboard.State)
        (s : StatusResponse) (a : list ActivityLogEntry) :
  bot_status_reply srv = Normal s ->
  bot_activity_reply srv 20%float = Normal a ->
  Forall failingTick after ->
  let w' := snd (Dashboard.poll (before ++ srv :: after) w) in
  Dashboard.status (ui w') = Some s /\
  Dashboard.activity (ui w') = a /\
  Dashboard.render (ui w') =
    Dashboard.Page s a (if Dashboard.isActive (Some s) then "Stop Bot" else "Start Bot").
Proof.
  intros Hs Ha Hafter w'. subst w'.
  rewrite poll_app, poll_cons.
  set (w0 := snd (Dashboard.poll before w)).
  assert (E1 : Dashboard.status (ui (snd (Dashboard.fetchData srv w0))) = Some s /\
               Dashboard.activity (ui (snd (Dashboard.fetchData srv w0))) = a /\
               Dashboard.loading (ui (snd (Dashboard.fetchData srv w0))) = false).
  { rewrite (fetchData_ok srv w0 s a Hs Ha). repeat split. }
  set (w1 := snd (Dashboard.fetchData srv w0)) in *.
  destruct E1 as (Es1 & Ea1 & El1).
  destruct (poll_failing_keeps after Hafter w1) as [Es Ea].
  rewrite Es1 in Es. rewrite Ea1 in Ea.
  assert (El : Dashboard.loading (ui (snd (Dashboard.poll after w1))) = false).
  { destruct after as [|x after _] using rev_ind.
    - exact El1.
    - rewrite poll_app, poll_cons. cbn [Dashboard.poll ret snd].
      destruct (fetchData_effects x (snd (Dashboard.poll after w1)))
        as (d & _ & _ & _ & _ & _ & Hl & _).
      exact Hl. }
  split; [exact Es|]. split; [exact Ea|].
  unfold Dashboard.render. rewrite El, Es, Ea. reflexivity.
Qed.

(** [last_good_poll_is_shown]: a failed tick, a good one, a failed one. *)
Lemma last_good_poll_is_shown_witness :
  Dashboard.status
    (ui (snd (Dashboard.poll [remoteDown; remoteUp running; remoteStatusDown]
                {| ui := Dashboard.initial; effects := [] |})))
  = Some (sampleStatus running).
Proof.
  destruct (last_good_poll_is_shown [remoteDown] [remoteStatusDown] (remoteUp running)
              {| ui := Dashboard.initial; effects := [] |}
              (sampleStatus running) [sampleEntry] eq_refl eq_refl) as (H & _).
  - constructor; [left; eexists; reflexivity | constructor].
  - exact H.
Defined.

(** What a series of ticks adds to the effects. *)
Lemma poll_effects (ticks : list Remote) :
  forall w : World Dashboard.State,
  exists d,
    effects (snd (Dashboard.poll ticks w)) = (effects w ++ d)%list /\
    requestsOf d = flat_map (fun _ => [GET_bot_status; GET_bot_activity 20%float]) ticks /\
    commands d = [] /\
    (forall path, ~ In (Navigate path) d) /\
    Dashboard.opportunities (ui (snd (Dashboard.poll ticks w)))
      = Dashboard.opportunities (ui w).
Proof.
  induction ticks as [|srv ticks IH]; intros w.
  - exists []. cbn. rewrite app_nil_r. repeat split. intros path [].
  - rewrite poll_cons.
    destruct (fetchData_effects srv w) as (d1 & _ & Hd1 & Hr1 & Hc1 & Hn1 & _ & Ho1 & _).
    destruct (IH (snd (Dashboard.fetchData srv w))) as (d2 & Hd2 & Hr2 & Hc2 & Hn2 & Ho2).
    exists (d1 ++ d2)%list. split; [|split; [|split; [|split]]].
    + rewrite Hd2, Hd1, app_assoc. reflexivity.
    + unfold requestsOf in *. rewrite flat_map_app, Hr1, Hr2. reflexivity.
    + unfold commands in *. rewrite filter_app, Hc1, Hc2. reflexivity.
    + intros path I. apply in_app_or in I. destruct I as [I|I].
      * exact (Hn1 path I).
      * exact (Hn2 path I).
    + rewrite Ho2, Ho1. reflexivity.
Qed.

(** The interval timer only reads: whatever the remote answers, a series of
    ticks sends the status and the activity request once per tick, in this
    order, sends no start or stop command, navigates nowhere, and leaves the
    list of opportunities as it was. *)
Theorem poll_only_reads (ticks : list Remote) (w : World Dashboard.State) :
  requestsOf (issued (Dashboard.poll ticks) w)
    = flat_map (fun _ => [GET_bot_status; GET_bot_activity 20%float]) ticks /\
  commands (issued (Dashboard.poll ticks) w) = [] /\
  (forall path, ~ In (Navigate path) (issued (Dashboard.poll ticks) w)) /\
  Dashboard.opportunities (ui (snd (Dashboard.poll ticks w)))
    = Dashboard.opportunities (ui w).
Proof.
  destruct (poll_effects ticks w) as (d & Hd & Hr & Hc & Hn & Ho).
  rewrite (issued_app _ w d Hd). repeat split; assumption.
Qed.

(* ================================================================== *)
(** * Dashboard: the button and what a click does *)
(* ================================================================== *)

(** A click completes normally and only adds to the effects. *)
Lemma handleStartStop_extends (srv : Remote) (status : option StatusResponse)
      (w : World Dashboard.State) :
  exists d,
    Dashboard.handleStartStop srv status w
      = (Normal tt, snd (Dashboard.handleStartStop srv status w)) /\
    effects (snd (Dashboard.handleStartStop srv status w)) = (effects w ++ d)%list /\
    (forall path, ~ In (Navigate path) d).
Proof.
  destruct (if Dashboard.isActive status then bot_stop_reply srv
            else bot_start_reply srv "balanced") as [r|e] eqn:R.
  - rewrite (handleStartStop_ok srv status w r R). cbn [snd].
    destruct (fetchData_effects srv
                {| ui := ui w;
                   effects := (effects w ++
                     [Http (if Dashboard.isActive status then POST_bot_stop
                            else POST_bot_start "balanced")])%list |})
      as (d & _ & Hd & _ & _ & Hn & _).
    exists (Http (if Dashboard.isActive status then POST_bot_stop
                  else POST_bot_start "balanced") :: d).
    split; [reflexivity|]. split.
    + rewrite Hd. cbn [effects]. rewrite <- app_assoc. reflexivity.
    + intros path [I|I]; [discriminate | exact (Hn path I)].
  - rewrite (handleStartStop_failed srv status w e R). cbn [snd effects].
    eexists. split; [reflexivity|]. split; [reflexivity|].
    intros path [I|[I|[]]]; discriminate.
Qed.

(** The button does what its label says: on a page that is shown, a click
    on "Stop Bot" sends the stop command and a click on "Start Bot" sends the
    start command, whatever the remote answers; the page shows no other
    label. *)
Theorem button_label_matches_command
        (srv : Remote) (w : World Dashboard.State)
        (shown : StatusResponse) (entries : list ActivityLogEntry) (label : string) :
  Dashboard.render (ui w) = Dashboard.Page shown entries label ->
  (label = "Stop Bot" /\
   commands (issued (Dashboard.clickStartStop srv) w) = [Http POST_bot_stop]) \/
  (label = "Start Bot" /\
   commands (issued (Dashboard.clickStartStop srv) w) = [Http (POST_bot_start "balanced")]).
Proof.
  intros R.
  assert (I : issued (Dashboard.clickStartStop srv) w
              = issued (Dashboard.handleStartStop srv (Dashboard.status (ui w))) w)
    by reflexivity.
  rewrite I, handleStartStop_commands.
  unfold Dashboard.render in R.
  destruct (Dashboard.loading (ui w)); [discriminate|].
  destruct (Dashboard.status (ui w)) as [st|]; [|discriminate].
  injection R as <- _ <-.
  unfold Dashboard.isActive.
  destruct (bot_status st); [right | left | left]; split; reflexivity.
Qed.

(** [button_label_matches_command] on the page of a running bot. *)
Lemma button_label_matches_command_witness :
  commands (issued (Dashboard.clickStartStop remoteDown) (dashboardShowing running))
  = [Http POST_bot_stop].
Proof.
  destruct (button_label_matches_command remoteDown (dashboardShowing running)
              (sampleStatus running) [] "Stop Bot" eq_refl) as [[_ H]|[E _]].
  - exact H.
  - discriminate E.
Defined.

(** Two clicks in a row, the first on a bot that is shown as active and
    whose stop command succeeds.  When the poll that follows the stop
    succeeds and reports a stopped bot, the second click starts it.  When
    that poll fails, the status shown is still the stale active one, and the
    second click sends a second stop. *)
Theorem second_click_follows_refreshed_status
        (srv1 srv2 : Remote) (w : World Dashboard.State)
        (st : StatusResponse) (r : CommandReply) :
  Dashboard.status (ui w) = Some st ->
  bot_status st = running \/ bot_status st = scanning ->
  bot_stop_reply srv1 = Normal r ->
  (forall s a,
     bot_status_reply srv1 = Normal s -> bot_status s = stopped ->
     bot_activity_reply srv1 20%float = Normal a ->
     commands (issued (Dashboard.clickStartStop srv1 ;; Dashboard.clickStartStop srv2) w)
       = [Http POST_bot_stop; Http (POST_bot_start "balanced")]) /\
  (failingTick srv1 ->
     commands (issued (Dashboard.clickStartStop srv1 ;; Dashboard.clickStartStop srv2) w)
       = [Http POST_bot_stop; Http POST_bot_stop]).
Proof.
  intros Hst Hact Hstop.
  assert (A : Dashboard.isActive (Some st) = true).
  { unfold Dashboard.isActive. destruct Hact as [-> | ->]; reflexivity. }
  assert (R1 : (if Dashboard.isActive (Dashboard.status (ui w)) then bot_stop_reply srv1
                else bot_start_reply srv1 "balanced") = Normal r).
  { rewrite Hst, A. exact Hstop. }
  set (w0 := {| ui := ui w; effects := (effects w ++ [Http POST_bot_stop])%list |}).
  assert (E1 : Dashboard.clickStartStop srv1 w
               = (Normal tt, snd (Dashboard.fetchData srv1 w0))).
  { unfold Dashboard.clickStartStop.
    rewrite (handleStartStop_ok srv1 _ w r R1). rewrite Hst, A. reflexivity. }
  set (w1 := snd (Dashboard.fetchData srv1 w0)) in *.
  destruct (fetchData_effects srv1 w0) as (d1 & _ & Hd1 & _ & Hc1 & _).
  fold w1 in Hd1.
  destruct (handleStartStop_extends srv2 (Dashboard.status (ui w1)) w1) as (d2 & _ & Hd2 & _).
  assert (C2 : commands d2 =
               [Http (if Dashboard.isActive (Dashboard.status (ui w1)) then POST_bot_stop
                      else POST_bot_start "balanced")]).
  { rewrite <- (issued_app _ w1 d2 Hd2). apply handleStartStop_commands. }
  assert (I : issued (Dashboard.clickStartStop srv1 ;; Dashboard.clickStartStop srv2) w
              = (Http POST_bot_stop :: d1 ++ d2)%list).
  { apply issued_app. unfold bind. rewrite E1.
    change (Dashboard.clickStartStop srv2 w1)
      with (Dashboard.handleStartStop srv2 (Dashboard.status (ui w1)) w1).
    rewrite Hd2, Hd1. subst w0. cbn [effects].
    rewrite <- !app_assoc. reflexivity. }
  rewrite I. unfold commands in *. cbn [filter isCommand].
  rewrite filter_app, Hc1, C2. cbn [app].
  split.
  - intros s a Hs Hstopped Ha.
    subst w1. rewrite (fetchData_ok srv1 w0 s a Hs Ha). cbn [snd ui Dashboard.status].
    unfold Dashboard.isActive. rewrite Hstopped. reflexivity.
  - intros F. destruct (fetchData_failed srv1 w0 F) as [e E].
    subst w1. rewrite E. cbn [snd ui Dashboard.status].
    subst w0. cbn [ui]. rewrite Hst, A. reflexivity.
Qed.

(** [second_click_follows_refreshed_status]: a stop that succeeds while the
    status endpoint is down, then a second click. *)
Lemma second_click_follows_refreshed_status_witness :
  commands (issued (Dashboard.clickStartStop remoteStatusDown ;;
                    Dashboard.clickStartStop (remoteUp stopped))
                   (dashboardShowing running))
  = [Http POST_bot_stop; Http POST_bot_stop].
Proof.
  destruct (second_click_follows_refreshed_status remoteStatusDown (remoteUp stopped)
              (dashboardShowing running) (sampleStatus running)
              {| reply_message := "Bot stopped" |} eq_refl (or_introl eq_refl) eq_refl)
    as (_ & H).
  apply H. left. eexists. reflexivity.
Defined.

(* ================================================================== *)
(** * StrategySelect: choosing a preset and starting *)
(* ================================================================== *)

Lemma handleStart_ok (srv : Remote) (selected : string)
      (w : World StrategySelect.State) (r : CommandReply) :
  bot_start_reply srv selected = Normal r ->
  StrategySelect.handleStart srv selected w =
    (Normal tt,
     {| ui := {| StrategySelect.selected := StrategySelect.selected (ui w);
                 StrategySelect.starting := true |};
        effects := (effects w ++ [Http (POST_bot_start selected);
                                  Navigate "/dashboard"])%list |}).
Proof.
  intros H.
  unfold StrategySelect.handleStart, try_catch, bind, Client.startBot, request.
  cbn. rewrite H. cbn. rewrite <- app_assoc. reflexivity.
Qed.

Lemma handleStart_failed (srv : Remote) (selected : string)
      (w : World StrategySelect.State) (e : error) :
  bot_start_reply srv selected = Throw e ->
  StrategySelect.handleStart srv selected w =
    (Normal tt,
     {| ui := {| StrategySelect.selected := StrategySelect.selected (ui w);
                 StrategySelect.starting := false |};
        effects := (effects w ++ [Http (POST_bot_start selected);
                                  ConsoleError "Failed to start bot:" e])%list |}).
Proof.
  intros H.
  unfold StrategySelect.handleStart, try_catch, bind, Client.startBot, request.
  cbn. rewrite H. cbn. rewrite <- app_assoc. reflexivity.
Qed.

(** Starting from the strategy page sends one start command with the preset
    selected.  When it succeeds the page navigates to the dashboard and its
    button stays disabled ([starting] is left set); when it fails the reason
    is logged, nothing is navigated to, and the button is enabled again for a
    retry.  The selection is kept either way. *)
Theorem handleStart_outcome (srv : Remote) (selected : string)
        (w : World StrategySelect.State) :
  let w' := snd (StrategySelect.handleStart srv selected w) in
  fst (StrategySelect.handleStart srv selected w) = Normal tt /\
  StrategySelect.selected (ui w') = StrategySelect.selected (ui w) /\
  match bot_start_reply srv selected with
  | Normal _ =>
      issued (StrategySelect.handleStart srv selected) w
        = [Http (POST_bot_start selected); Navigate "/dashboard"] /\
      StrategySelect.starting (ui w') = true
  | Throw e =>
      issued (StrategySelect.handleStart srv selected) w
        = [Http (POST_bot_start selected); ConsoleError "Failed to start bot:" e] /\
      StrategySelect.starting (ui w') = false
  end.
Proof.
  intros w'. subst w'.
  destruct (bot_start_reply srv selected) as [r|e] eqn:R.
  - rewrite (handleStart_ok srv selected w r R). repeat split.
    apply issued_app. rewrite (handleStart_ok srv selected w r R). reflexivity.
  - rewrite (handleStart_failed srv selected w e R). repeat split.
    apply issued_app. rewrite (handleStart_failed srv selected w e R). reflexivity.
Qed.

(** A click on a card leaves a selection that is a preset of the table. *)
Lemma clickCard_keeps_known (i : nat) (w : World StrategySelect.State) :
  In (StrategySelect.selected (ui w)) (map preset_id STRATEGY_PRESETS) ->
  In (StrategySelect.selected (ui (snd (StrategyCards.clickCard i w))))
     (map preset_id STRATEGY_PRESETS) /\
  fst (StrategyCards.clickCard i w) = Normal tt /\
  effects (snd (StrategyCards.clickCard i w)) = effects w.
Proof.
  intros H. unfold StrategyCards.clickCard.
  destruct (nth_error STRATEGY_PRESETS i) as [preset|] eqn:E.
  - unfold StrategySelect.setSelected, setState.
    cbn [fst snd ui effects StrategySelect.selected].
    repeat split. apply in_map. exact (nth_error_In _ _ E).
  - unfold ret. cbn [fst snd]. repeat split. exact H.
Qed.

Lemma clickCards_keeps_known (clicks : list nat) :
  forall w : World StrategySelect.State,
    In (StrategySelect.selected (ui w)) (map preset_id STRATEGY_PRESETS) ->
    In (StrategySelect.selected (ui (snd (clickCards clicks w))))
       (map preset_id STRATEGY_PRESETS) /\
    effects (snd (clickCards clicks w)) = effects w.
Proof.
  induction clicks as [|i clicks IH]; intros w H.
  - split; [exact H | reflexivity].
  - destruct (clickCard_keeps_known i w H) as (H1 & N1 & E1).
    cbn [clickCards]. unfold bind.
    destruct (StrategyCards.clickCard i w) as [r w1]. cbn [fst snd] in *. subst r.
    destruct (IH w1 H1) as (H2 & E2). split; [exact H2|].
    rewrite E2. exact E1.
Qed.

(** Whatever cards are clicked, and in whatever order, on the freshly
    mounted strategy page, the clicks send nothing, and the start command
    sent afterwards carries the identifier of one of the three presets of the
    table: "safe", "balanced" or "aggressive". *)
Theorem start_sends_a_known_preset (clicks : list nat) (srv : Remote) :
  let w0 := {| ui := StrategySelect.initial; effects := [] |} in
  exists preset,
    In preset ["safe"; "balanced"; "aggressive"] /\
    issued (clickCards clicks) w0 = [] /\
    requestsOf (issued (StrategyCards.clickStart srv) (snd (clickCards clicks w0)))
      = [POST_bot_start preset].
Proof.
  intros w0.
  destruct (clickCards_keeps_known clicks w0) as (H & E).
  { cbn. right. left. reflexivity. }
  exists (StrategySelect.selected (ui (snd (clickCards clicks w0)))).
  split; [exact H|]. split.
  - apply issued_app. rewrite E, app_nil_r. reflexivity.
  - set (w1 := snd (clickCards clicks w0)) in *.
    unfold issued, StrategyCards.clickStart.
    destruct (bot_start_reply srv (StrategySelect.selected (ui w1))) as [r|e] eqn:R.
    + rewrite (handleStart_ok srv _ w1 r R). cbn [snd effects].
      rewrite skipn_app_length. reflexivity.
    + rewrite (handleStart_failed srv _ w1 e R). cbn [snd effects].
      rewrite skipn_app_length. reflexivity.
Qed.

(* ================================================================== *)
(** * Navigation stays within the routes *)
(* ================================================================== *)

(** Every navigation of the application goes to a path of the route table,
    never to one that only the catch-all route would take: this holds for
    the six navigation buttons, for a start from the strategy page, for a
    save of the settings and for a click on the dashboard's start/stop
    button, whatever the remote answers. *)
Theorem navigation_within_routes :
  (forall (S : Type) (w : World S),
     navigatesWithinRoutes (issued NavButtons.welcomeGetStarted w) /\
     navigatesWithinRoutes (issued NavButtons.welcomeSkip w) /\
     navigatesWithinRoutes (issued NavButtons.strategySkip w) /\
     navigatesWithinRoutes (issued NavButtons.dashboardSettings w) /\
     navigatesWithinRoutes (issued NavButtons.settingsBack w) /\
     navigatesWithinRoutes (issued NavButtons.settingsCancel w)) /\
  (forall srv selected (w : World StrategySelect.State),
     navigatesWithinRoutes (issued (StrategySelect.handleStart srv selected) w)) /\
  (forall srv draft (w : World Settings.State),
     navigatesWithinRoutes (issued (Settings.handleSave srv draft) w)) /\
  (forall srv status (w : World Dashboard.State),
     navigatesWithinRoutes (issued (Dashboard.handleStartStop srv status) w)).
Proof.
  assert (B : forall (S : Type) (w : World S) path,
             In path (map fst App.routes) ->
             navigatesWithinRoutes (issued (navigate path) w)).
  { intros S w path H. unfold issued, navigate, emit. cbn [snd effects].
    rewrite skipn_app_length. intros p [I|[]]. injection I as <-. exact H. }
  split; [|split; [|split]].
  - intros S w. repeat split; apply B; cbn; tauto.
  - intros srv selected w.
    destruct (bot_start_reply srv selected) as [r|e] eqn:R.
    + rewrite (issued_app _ w [Http (POST_bot_start selected); Navigate "/dashboard"]).
      * intros p [I|[I|[]]]; [discriminate|]. injection I as <-. cbn. tauto.
      * rewrite (handleStart_ok srv selected w r R). reflexivity.
    + rewrite (issued_app _ w [Http (POST_bot_start selected);
                               ConsoleError "Failed to start bot:" e]).
      * intros p [I|[I|[]]]; discriminate.
      * rewrite (handleStart_failed srv selected w e R). reflexivity.
  - intros srv draft w.
    destruct (update_settings_reply srv draft) as [echo|e] eqn:R.
    + rewrite (issued_app _ w [Http (POST_settings draft); Navigate "/dashboard"]).
      * intros p [I|[I|[]]]; [discriminate|]. injection I as <-. cbn. tauto.
      * rewrite (handleSave_ok srv draft w echo R). reflexivity.
    + rewrite (issued_app _ w [Http (POST_settings draft);
                               ConsoleError "Failed to save settings:" e]).
      * intros p [I|[I|[]]]; discriminate.
      * rewrite (handleSave_failed srv draft w e R). reflexivity.
  - intros srv status w.
    destruct (handleStartStop_extends srv status w) as (d & _ & Hd & Hn).
    rewrite (issued_app _ w d Hd). intros p I. destruct (Hn p I).
Qed.

(* ================================================================== *)
(** * Settings: saving, loading and editing *)
(* ================================================================== *)

(** A save completes normally whatever the remote answers, sends exactly one
    request, and ends with the saving flag cleared, so that the button is
    enabled again; it navigates to the dashboard exactly when the update
    succeeded, and logs the reason otherwise.  The settings echoed by the
    remote are not read: the draft is what it was. *)
Theorem handleSave_outcome (srv : Remote) (draft : BotSettings)
        (w : World Settings.State) :
  let w' := snd (Settings.handleSave srv draft w) in
  fst (Settings.handleSave srv draft w) = Normal tt /\
  Settings.saving (ui w') = false /\
  Settings.loading (ui w') = Settings.loading (ui w) /\
  Settings.settings (ui w') = Settings.settings (ui w) /\
  requestsOf (issued (Settings.handleSave srv draft) w) = [POST_settings draft] /\
  (In (Navigate "/dashboard") (issued (Settings.handleSave srv draft) w) <->
   exists echo, update_settings_reply srv draft = Normal echo).
Proof.
  intros w'. subst w'.
  destruct (update_settings_reply srv draft) as [echo|e] eqn:R.
  - rewrite (issued_app _ w [Http (POST_settings draft); Navigate "/dashboard"])
      by (rewrite (handleSave_ok srv draft w echo R); reflexivity).
    rewrite (handleSave_ok srv draft w echo R). repeat split.
    + intros _. eauto.
    + intros _. right. left. reflexivity.
  - rewrite (issued_app _ w [Http (POST_settings draft);
                             ConsoleError "Failed to save settings:" e])
      by (rewrite (handleSave_failed srv draft w e R); reflexivity).
    rewrite (handleSave_failed srv draft w e R). repeat split.
    + intros [I|[I|[]]]; discriminate.
    + intros [echo H]. discriminate.
Qed.

(** A load that succeeds replaces the draft by the remote settings whatever
    the draft was, clears the loading flag, and the form is then shown with
    the remote values and the label of the remote risk appetite. *)
Theorem loadSettings_replaces_draft (srv : Remote) (w : World Settings.State)
        (data : BotSettings) :
  settings_reply srv = Normal data ->
  let w' := snd (Settings.loadSettings srv w) in
  Settings.settings (ui w') = data /\
  Settings.loading (ui w') = false /\
  issued (Settings.loadSettings srv) w = [Http GET_settings] /\
  Settings.render (ui w') =
    Settings.Form (Settings.getRiskLabel (risk_appetite data)) data
                  (if Settings.saving (ui w) then "Saving..." else "Save Changes")
                  (Settings.saving (ui w)).
Proof.
  intros H w'. subst w'.
  rewrite (issued_app _ w [Http GET_settings])
    by (rewrite (loadSettings_ok srv w data H); reflexivity).
  rewrite (loadSettings_ok srv w data H). repeat split.
Qed.

(** [loadSettings_replaces_draft] on a page that was edited before the
    answer arrived. *)
Lemma loadSettings_replaces_draft_witness :
  Settings.settings
    (ui (snd (Settings.loadSettings (remoteUp stopped)
                (snd (Settings.onMaxCapitalChange "77" settingsMounted)))))
  = sampleSettings.
Proof.
  apply (loadSettings_replaces_draft (remoteUp stopped)
           (snd (Settings.onMaxCapitalChange "77" settingsMounted)) sampleSettings eq_refl).
Defined.

(** Toggling a strategy sets the flag of that strategy and of no other: the
    flag reads back as it was set, every other flag reads as before, and
    the risk appetite, the maximum capital, the busy flags and the effects
    are untouched. *)
Theorem onStrategyChange_sets_one_flag
        (key : StrategyType) (checked : bool) (w : World Settings.State) :
  let w' := snd (Settings.onStrategyChange key checked w) in
  flag (strategies_enabled (Settings.settings (ui w'))) key = checked /\
  (forall other, other <> key ->
     flag (strategies_enabled (Settings.settings (ui w'))) other
     = flag (strategies_enabled (Settings.settings (ui w))) other) /\
  risk_appetite (Settings.settings (ui w')) = risk_appetite (Settings.settings (ui w)) /\
  max_capital (Settings.settings (ui w')) = max_capital (Settings.settings (ui w)) /\
  Settings.loading (ui w') = Settings.loading (ui w) /\
  Settings.saving (ui w') = Settings.saving (ui w) /\
  effects w' = effects w.
Proof.
  intros w'. subst w'. cbn.
  split; [destruct key; reflexivity|].
  split; [|repeat split].
  intros other N. destruct key, other; try reflexivity; contradiction N; reflexivity.
Qed.

Lemma applyEdit_run (e : Edit) (w : World Settings.State) :
  applyEdit e w =
    (Normal tt,
     {| ui := {| Settings.loading := Settings.loading (ui w);
                 Settings.saving := Settings.saving (ui w);
                 Settings.settings := editDraft e (Settings.settings (ui w)) |};
        effects := effects w |}).
Proof.
  destruct e; reflexivity.
Qed.

Lemma applyEdits_run (es : list Edit) :
  forall w : World Settings.State,
    applyEdits es w =
      (Normal tt,
       {| ui := {| Settings.loading := Settings.loading (ui w);
                   Settings.saving := Settings.saving (ui w);
                   Settings.settings :=
                     fold_left (fun s e => editDraft e s) es (Settings.settings (ui w)) |};
          effects := effects w |}).
Proof.
  induction es as [|e es IH]; intros w.
  - destruct w as [[l sv st] eff]. reflexivity.
  - cbn [applyEdits fold_left]. unfold bind. rewrite applyEdit_run, IH. reflexivity.
Qed.

(** Edits stay local until the save, and the save sends them all: any
    series of edits of the form (slider, strategy toggles, capital input)
    issues no request at all, and the save that follows sends one request
    whose body is the draft with the edits applied in order. *)
Theorem edits_are_local_until_save (es : list Edit) (srv : Remote)
        (w : World Settings.State) :
  issued (applyEdits es) w = [] /\
  requestsOf (issued (applyEdits es ;; Settings.clickSave srv) w)
    = [POST_settings (fold_left (fun s e => editDraft e s) es (Settings.settings (ui w)))].
Proof.
  split.
  - apply issued_app. rewrite applyEdits_run, app_nil_r. reflexivity.
  - unfold issued, bind. rewrite applyEdits_run.
    unfold Settings.clickSave. cbn [ui Settings.settings].
    set (draft := fold_left _ es _).
    set (w1 := {| ui := _; effects := effects w |}).
    destruct (update_settings_reply srv draft) as [echo|e] eqn:R.
    + rewrite (handleSave_ok srv draft w1 echo R). cbn [snd effects].
      rewrite skipn_app_length. reflexivity.
    + rewrite (handleSave_failed srv draft w1 e R). cbn [snd effects].
      rewrite skipn_app_length. reflexivity.
Qed.

(** On each of the 101 positions of the risk slider (0 to 100 in steps of
    1) the risk appetite stored is within [0, 1] and the label shown is
    "Conservative" up to 32, "Balanced" from 33 to 65 and "Aggressive" from
    66 on. *)
Theorem slider_positions_and_labels (n : nat) (w : World Settings.State) :
  n <= 100 ->
  let w' := snd (Settings.onRiskChange (position n) w) in
  let r := risk_appetite (Settings.settings (ui w')) in
  (0 <=? r)%float = true /\ (r <=? 1)%float = true /\
  Settings.getRiskLabel r =
    (if (n <? 33)%nat then "Conservative" else if (n <? 66)%nat then "Balanced" else "Aggressive").
Proof.
  intros H w' r.
  assert (R : r = (position n / 100)%float) by reflexivity.
  rewrite R. clear R r w' w.
  assert (C : forallb (fun k =>
                ((0 <=? position k / 100)%float && (position k / 100 <=? 1)%float &&
                 String.eqb (Settings.getRiskLabel (position k / 100)%float)
                   (if (k <? 33)%nat then "Conservative"
                    else if (k <? 66)%nat then "Balanced" else "Aggressive"))%bool)
              (seq 0 101) = true) by (vm_compute; reflexivity).
  rewrite forallb_forall in C.
  specialize (C n). rewrite in_seq in C.
  assert (Hn : 0 <= n < 0 + 101) by lia.
  apply C in Hn. apply andb_prop in Hn. destruct Hn as [Hn Hl].
  apply andb_prop in Hn. destruct Hn as [H0 H1].
  apply String.eqb_eq in Hl. repeat split; assumption.
Qed.

(** [slider_positions_and_labels] at position 33, the first "Balanced". *)
Lemma slider_positions_and_labels_witness :
  Settings.getRiskLabel
    (risk_appetite (Settings.settings
       (ui (snd (Settings.onRiskChange (position 33) settingsMounted)))))
  = "Balanced".
Proof.
  apply (slider_positions_and_labels 33 settingsMounted). lia.
Defined.

(** The value handed back to the slider, [risk_appetite * 100], is the
    position that was chosen except at the eight positions 7, 14, 28, 29, 55,
    56, 57 and 58, where the division by 100 and the multiplication by 100
    do not cancel; it always rounds to the position, and the filled part of
    the track is within [0, 100]. *)
Theorem slider_value_round_trip (n : nat) (w : World Settings.State) :
  n <= 100 ->
  let s := Settings.settings (ui (snd (Settings.onRiskChange (position n) w))) in
  (SettingsView.sliderValue s = position n <->
   ~ In n [7; 14; 28; 29; 55; 56; 57; 58]) /\
  Math_round (SettingsView.sliderValue s) = position n /\
  (0 <=? SettingsView.sliderPercentage s)%float = true /\
  (SettingsView.sliderPercentage s <=? 100)%float = true.
Proof.
  intros H s.
  assert (E : SettingsView.sliderValue s = (position n / 100 * 100)%float) by reflexivity.
  assert (P : SettingsView.sliderPercentage s
              = Slider.percentage (position n / 100 * 100)%float 0%float 100%float)
    by reflexivity.
  rewrite E, P. clear E P s w.
  assert (C : forallb (fun k =>
                (Bool.eqb (PrimFloat.Leibniz.eqb (position k / 100 * 100)%float (position k))
                          (negb (existsb (Nat.eqb k) [7; 14; 28; 29; 55; 56; 57; 58])) &&
                 PrimFloat.Leibniz.eqb (Math_round (position k / 100 * 100)%float) (position k) &&
                 (0 <=? Slider.percentage (position k / 100 * 100)%float 0%float 100%float)%float &&
                 (Slider.percentage (position k / 100 * 100)%float 0%float 100%float <=? 100)%float)%bool)
              (seq 0 101) = true) by (vm_compute; reflexivity).
  rewrite forallb_forall in C.
  specialize (C n). rewrite in_seq in C.
  assert (Hn : 0 <= n < 0 + 101) by lia.
  apply C in Hn.
  apply andb_prop in Hn. destruct Hn as [Hn H100].
  apply andb_prop in Hn. destruct Hn as [Hn H0].
  apply andb_prop in Hn. destruct Hn as [Heq Hround].
  apply Bool.eqb_prop in Heq.
  apply FloatAxioms.Leibniz.eqb_spec in Hround.
  split; [|repeat split; assumption].
  rewrite <- FloatAxioms.Leibniz.eqb_spec, Heq, negb_true_iff.
  split.
  - intros X I. assert (Y : existsb (Nat.eqb n) [7; 14; 28; 29; 55; 56; 57; 58] = true).
    { apply existsb_exists. exists n. split; [exact I | apply Nat.eqb_refl]. }
    rewrite X in Y. discriminate.
  - intros X. destruct (existsb (Nat.eqb n) [7; 14; 28; 29; 55; 56; 57; 58]) eqn:Y;
      [|reflexivity].
    apply existsb_exists in Y. destruct Y as (k & I & K).
    apply Nat.eqb_eq in K. subst k. contradiction.
Qed.

(** [slider_value_round_trip] at position 7, where the round trip is off. *)
Lemma slider_value_round_trip_witness :
  SettingsView.sliderValue
    (Settings.settings (ui (snd (Settings.onRiskChange (position 7) settingsMounted))))
  <> position 7.
Proof.
  destruct (slider_value_round_trip 7 settingsMounted) as ((H & _) & _); [lia|].
  intros E. apply (H E). cbn. tauto.
Defined.

(* ================================================================== *)
(** * TopOpportunities: rows and the return cell *)
(* ================================================================== *)

(** The list of opportunities shows "Scanning markets..." while loading,
    whatever it holds; otherwise the empty notice on an empty list, and else
    one row per opportunity for the first five of them at most, in the order
    received, each with the name, the return cell and the strategy of its
    opportunity. *)
Theorem topOpportunities_rows (opportunities : list Opportunity) :
  TopOpportunities.render opportunities true = TopOpportunities.ScanningMarkets /\
  (opportunities = [] ->
   TopOpportunities.render opportunities false = TopOpportunities.NoOpportunities) /\
  (opportunities <> [] ->
   exists rows,
     TopOpportunities.render opportunities false = TopOpportunities.Rows rows /\
     List.length rows = Nat.min 5 (List.length opportunities) /\
     map TopOpportunities.row_name rows = map name (firstn 5 opportunities) /\
     map TopOpportunities.row_return rows
       = map TopOpportunities.displayedReturn (firstn 5 opportunities) /\
     map TopOpportunities.row_strategy rows = map strategy (firstn 5 opportunities)).
Proof.
  split; [reflexivity|]. split.
  - intros ->. reflexivity.
  - intros N. destruct opportunities as [|o rest]; [contradiction N; reflexivity|].
    eexists. split; [reflexivity|].
    rewrite length_map, length_firstn, !map_map.
    repeat split.
Qed.

(** [topOpportunities_rows] on seven opportunities: five rows. *)
Lemma topOpportunities_rows_witness :
  exists rows,
    TopOpportunities.render
      (map (fun n => {| id := n; name := n; strategy := "fullset"; edge := 0.01%float;
                        edge_pct := Some 1%float; annualized_return := None;
                        liquidity := 500%float; days_until_resolution := None;
                        total_cost := None; num_outcomes := None |})
           ["a"; "b"; "c"; "d"; "e"; "f"; "g"]) false
    = TopOpportunities.Rows rows /\
    map TopOpportunities.row_name rows = ["a"; "b"; "c"; "d"; "e"].
Proof.
  destruct (topOpportunities_rows
              (map (fun n => {| id := n; name := n; strategy := "fullset"; edge := 0.01%float;
                                edge_pct := Some 1%float; annualized_return := None;
                                liquidity := 500%float; days_until_resolution := None;
                                total_cost := None; num_outcomes := None |})
                   ["a"; "b"; "c"; "d"; "e"; "f"; "g"])) as (_ & _ & H).
  destruct H as (rows & R & _ & Hn & _); [discriminate|].
  exists rows. split; [exact R | exact Hn].
Defined.

Lemma percent_is_not_NA (s : string) : s ++ "%" <> "N/A".
Proof.
  destruct s as [|a [|b [|c s]]]; cbn; intros H; inversion H.
  destruct s; discriminate.
Qed.

(** The return cell reads "N/A" in one case only: [annualized_return] is
    absent, zero or NaN, and [edge_pct] is absent.  In particular a present
    [edge_pct] always gets a percentage shown. *)
Theorem displayedReturn_NA_iff (o : Opportunity) :
  (TopOpportunities.displayedReturn o = "N/A" <->
   truthy_opt (annualized_return o) = false /\ edge_pct o = None) /\
  (forall v, edge_pct o = Some v ->
     exists body, TopOpportunities.displayedReturn o = body ++ "%").
Proof.
  unfold TopOpportunities.displayedReturn, or_else_opt.
  destruct (annualized_return o) as [a|] eqn:A; cbn [truthy_opt].
  - destruct (truthy a) eqn:T.
    + split.
      * split.
        -- intros H. destruct (percent_is_not_NA _ H).
        -- intros [H _]. discriminate H.
      * intros v _. eexists. reflexivity.
    + split.
      * split.
        -- destruct (edge_pct o) as [v|]; cbn; intros H;
             [destruct (percent_is_not_NA _ H) | split; reflexivity].
        -- intros [_ ->]. reflexivity.
      * intros v ->. eexists. reflexivity.
  - split.
    + split.
      * destruct (edge_pct o) as [v|]; cbn; intros H;
          [destruct (percent_is_not_NA _ H) | split; reflexivity].
      * intros [_ ->]. reflexivity.
    + intros v ->. eexists. reflexivity.
Qed.

(* ================================================================== *)
(** * Signs and colours of the figures *)
(* ================================================================== *)

(** A Number is at least zero, or below it, or NaN, and only one of these. *)
Lemma sign_cases (x : float) :
  match (0 <=? x)%float, (x <? 0)%float, is_nan x with
  | true, false, false | false, true, false | false, false, true => True
  | _, _, _ => False
  end.
Proof.
  unfold is_nan. rewrite leb_spec, ltb_spec, eqb_spec.
  change (Prim2SF 0) with (S754_zero false).
  unfold SFleb, SFltb, SFeqb.
  destruct (Prim2SF x) as [[]|[]| |[] m e]; cbn; trivial;
    rewrite Z.compare_refl; change (Pos.compare_cont Eq) with Pos.compare;
    rewrite Pos.compare_refl; exact I.
Qed.

Lemma nan_Prim2SF (x : float) : is_nan x = true -> Prim2SF x = S754_nan.
Proof.
  unfold is_nan. rewrite eqb_spec. unfold SFeqb.
  destruct (Prim2SF x) as [[]|[]| |[] m e]; cbn [SFcompare negb];
    try discriminate; try reflexivity;
    rewrite Z.compare_refl; change (Pos.compare_cont Eq) with Pos.compare;
    rewrite Pos.compare_refl; discriminate.
Qed.

Lemma nan_toFixed (x : float) (f : nat) : is_nan x = true -> Number_toFixed x f = "NaN".
Proof.
  intros N. unfold Number_toFixed. rewrite (nan_Prim2SF x N). reflexivity.
Qed.

Lemma negative_toFixed (x : float) (f : nat) :
  (x <? 0)%float = true -> exists rest, Number_toFixed x f = "-" ++ rest.
Proof.
  unfold Number_toFixed. rewrite ltb_spec.
  change (Prim2SF 0) with (S754_zero false). unfold SFltb.
  destruct (Prim2SF x) as [[]|[]| |[] m e]; cbn [SFcompare]; try discriminate; intros _.
  - eexists. reflexivity.
  - destruct (0 <=? e)%Z.
    + destruct (10 ^ 21 <=? Z.pos m * 2 ^ e)%Z; eexists; reflexivity.
    + eexists. reflexivity.
Qed.

(** The colour of the "Total P&L" stat follows the sign: the profit colour
    exactly when the total is at least zero, the loss colour exactly when it
    is below zero, and the neutral colour exactly when it is NaN. *)
Theorem totalPnlColor_follows_sign (portfolio : PortfolioSummary) :
  (PortfolioStats.totalPnlColor portfolio = "text-profit"
   <-> (0 <=? total_pnl portfolio)%float = true) /\
  (PortfolioStats.totalPnlColor portfolio = "text-loss"
   <-> (total_pnl portfolio <? 0)%float = true) /\
  (PortfolioStats.totalPnlColor portfolio = "text-text-primary"
   <-> is_nan (total_pnl portfolio) = true).
Proof.
  unfold PortfolioStats.totalPnlColor, Stat.valueColor.
  pose proof (sign_cases (total_pnl portfolio)) as C.
  destruct (0 <=? total_pnl portfolio)%float, (total_pnl portfolio <? 0)%float,
           (is_nan (total_pnl portfolio));
    try contradiction; repeat split; intros H; try reflexivity; discriminate H.
Qed.

(** The figures of the "Trading Stats" card.  A value below zero is in the
    loss colour, without a plus sign and with its minus sign after the dollar
    sign ("$-..."); a value of at least zero is in the profit colour with a
    plus sign; NaN is shown as "$NaN" and "NaN%" in the loss colour. *)
Theorem tradingStats_figures (x : number) :
  ((x <? 0)%float = true ->
   TradingStats.figureClass x = "font-mono text-loss" /\
   (exists rest, TradingStats.pnlText x = "$-" ++ rest) /\
   (exists rest, TradingStats.returnText x = "-" ++ rest)) /\
  ((0 <=? x)%float = true ->
   TradingStats.figureClass x = "font-mono text-profit" /\
   TradingStats.pnlText x = "+$" ++ Number_toFixed x 2 /\
   TradingStats.returnText x = "+" ++ Number_toFixed x 2 ++ "%") /\
  (is_nan x = true ->
   TradingStats.figureClass x = "font-mono text-loss" /\
   TradingStats.pnlText x = "$NaN" /\
   TradingStats.returnText x = "NaN%").
Proof.
  unfold TradingStats.figureClass, TradingStats.pnlText, TradingStats.returnText.
  pose proof (sign_cases x) as C.
  split; [|split].
  - intros N. destruct (negative_toFixed x 2 N) as [rest R]. rewrite R.
    rewrite N in C. destruct (0 <=? x)%float; [contradiction|].
    repeat split; eexists; reflexivity.
  - intros ->. repeat split.
  - intros N. rewrite (nan_toFixed x 2 N). rewrite N in C.
    destruct (0 <=? x)%float; [destruct (x <? 0)%float; contradiction|].
    repeat split.
Qed.

(** [tradingStats_figures] on -5, 12.5 and NaN. *)
Lemma tradingStats_figures_witness :
  TradingStats.pnlText (-5)%float = "$-5.00" /\
  TradingStats.pnlText 12.5%float = "+$12.50" /\
  TradingStats.returnText nan = "NaN%".
Proof.
  destruct (tradingStats_figures (-5)%float) as (Hneg & _).
  destruct (tradingStats_figures 12.5%float) as (_ & Hpos & _).
  destruct (tradingStats_figures nan) as (_ & _ & Hnan).
  destruct (Hneg eq_refl) as (_ & _ & _).
  destruct (Hpos eq_refl) as (_ & P & _).
  destruct (Hnan eq_refl) as (_ & _ & N).
  split; [vm_compute; reflexivity|].
  split; [rewrite P; vm_compute; reflexivity | exact N].
Defined.

(* ================================================================== *)
(** * PortfolioChart: the draws that matter and the series drawn *)
(* ================================================================== *)

Lemma walk_ext (random random' : nat -> number) (steps : nat) :
  forall (i : nat) (v : number),
    (forall j, i <= j < i + steps -> random j = random' j) ->
    walk random i v steps = walk random' i v steps.
Proof.
  induction steps as [|k IH]; intros i v H; cbn [walk].
  - reflexivity.
  - rewrite (H i) by lia. apply IH. intros j Hj. apply H. lia.
Qed.

(** The loop draws 24 random numbers, but the series is a function of the
    first 23 only: two random sources that agree on the draws of iterations
    0 to 22 give the same mock series, whatever the draw of the last
    iteration is. *)
Theorem generateMockData_uses_23_draws
        (random random' : nat -> number) (currentValue : number) :
  (forall j, j < 23 -> random j = random' j) ->
  PortfolioChart.generateMockData random currentValue
  = PortfolioChart.generateMockData random' currentValue.
Proof.
  intros H.
  assert (W : forall k, k <= 22 ->
                walk random 0 (currentValue * 0.95)%float k
                = walk random' 0 (currentValue * 0.95)%float k).
  { intros k Hk. apply walk_ext. intros j Hj. apply H. lia. }
  unfold PortfolioChart.generateMockData.
  rewrite !mockLoop_length, !mockLoop_unroll.
  cbn [app seq map List.length Nat.add Nat.sub].
  unfold PortfolioChart.set_value_at.
  cbn [nth_error firstn skipn app PortfolioChart.time].
  repeat (rewrite W by lia).
  reflexivity.
Qed.

(** [generateMockData_uses_23_draws] on two sources that differ in the last
    draw only. *)
Lemma generateMockData_uses_23_draws_witness :
  PortfolioChart.generateMockData (fun _ => 0.5%float) 1000%float
  = PortfolioChart.generateMockData
      (fun i => if (i <? 23)%nat then 0.5%float else 0.99%float) 1000%float.
Proof.
  apply generateMockData_uses_23_draws.
  intros j Hj. apply Nat.ltb_lt in Hj. rewrite Hj. reflexivity.
Defined.

(** The mock series exists, has 24 points and ends on the current value. *)
Lemma generateMockData_some (random : nat -> number) (currentValue : number) :
  exists data,
    PortfolioChart.generateMockData random currentValue = Some data /\
    List.length data = 24 /\
    option_map PortfolioChart.value (nth_error data 23) = Some currentValue.
Proof.
  unfold PortfolioChart.generateMockData.
  rewrite mockLoop_length, mockLoop_unroll.
  cbn [app seq map List.length Nat.add Nat.sub].
  unfold PortfolioChart.set_value_at.
  cbn [nth_error firstn skipn app PortfolioChart.time].
  eexists. repeat split.
Qed.

(** The chart always has a series to draw, and never an empty one: a series
    that is supplied and not empty is drawn as it is, whatever the random
    source; without one, 24 mock points are drawn, the last of which is the
    portfolio's total value. *)
Theorem chartSeries_always_drawn
        (random : nat -> number) (portfolio : PortfolioSummary)
        (chartData : list PortfolioChart.ChartPoint) :
  exists series,
    PortfolioChart.chartSeries random portfolio chartData = Some series /\
    series <> [] /\
    (chartData <> [] -> series = chartData) /\
    (chartData = [] ->
     List.length series = 24 /\
     option_map PortfolioChart.value (nth_error series 23) = Some (total_value portfolio)).
Proof.
  destruct chartData as [|p rest].
  - destruct (generateMockData_some random (total_value portfolio)) as (data & E & L & V).
    exists data. cbn [PortfolioChart.chartSeries].
    split; [exact E|]. split; [|split].
    + intros ->. discriminate L.
    + intros N. contradiction N. reflexivity.
    + intros _. split; assumption.
  - exists (p :: rest). cbn [PortfolioChart.chartSeries].
    split; [reflexivity|]. split; [discriminate|]. split.
    + reflexivity.
    + discriminate.
Qed.
